(** * FLAN-summarizer: the dataset adapter and the training-module configurator

    A shallow embedding of [data.py] (class [CustomDataset]) and of
    [lightning_base.py] (class [BaseTransformer], the argument parsers and
    [generic_train]), with the properties of the specification stated over
    it.

    Python values that the code inspects dynamically (truthiness, attribute
    presence, comparison) are modelled by the tagged union [value];
    namespaces and configuration objects are finite maps from attribute
    names to values; exceptions are the left summand of [result]. The
    collaborators that live outside the repository are parameters: the
    tokenizer is a record of its method, the model hub and the
    surroundings of a run are classes, the methods of a task subclass are
    a record, and optimizers, schedules and the trainer are the calls that
    construct them. *)

From Stdlib Require Import ZArith NArith List Ascii String Bool Lia Permutation.
From Stdlib Require Import Floats.SpecFloat.
From stdpp Require Import base option list strings gmap.

Local Open Scope Z_scope.

(** ** Python text

    A Python [str] is a sequence of Unicode code points. *)

Module Text.

Definition NEWLINE : N := 10.
Definition SPACE : N := 32.
Definition DQUOTE : N := 34.
Definition BACKTICK : N := 96.

(** Code points of an ASCII literal, for writing examples. *)
Definition of_string (s : string) : list N :=
  map (fun a => N.of_nat (nat_of_ascii a)) (list_ascii_of_string s).

(** [str.isspace] on one code point: the table [_PyUnicode_IsWhitespace]
    of CPython, which [str.strip()] without argument uses. *)
Definition isspace (c : N) : bool :=
  ((9 <=? c) && (c <=? 13) || (28 <=? c) && (c <=? 32)
   || (c =? 133) || (c =? 160) || (c =? 5760)
   || (8192 <=? c) && (c <=? 8202)
   || (c =? 8232) || (c =? 8233) || (c =? 8239) || (c =? 8287)
   || (c =? 12288))%N.

Fixpoint lstrip (s : list N) : list N :=
  match s with
  | [] => []
  | c :: s' => if isspace c then lstrip s' else s
  end.

Definition rstrip (s : list N) : list N := reverse (lstrip (reverse s)).

(** [s.strip()] *)
Definition strip (s : list N) : list N := lstrip (rstrip s).

Fixpoint startswith (pat s : list N) : bool :=
  match pat, s with
  | [], _ => true
  | _ :: _, [] => false
  | p :: pat', c :: s' => (p =? c)%N && startswith pat' s'
  end.

(** [old in s] on strings. *)
Fixpoint contains (pat s : list N) : bool :=
  startswith pat s ||
  match s with
  | [] => false
  | _ :: s' => contains pat s'
  end.

(** [s.replace(old, new)]: the occurrences of [old] are found from left to
    right and do not overlap. [skip] counts the characters of a matched
    occurrence that are still to be consumed. An empty [old] matches
    before every character and at the end. *)
Fixpoint replace_from (old new s : list N) (skip : nat) : list N :=
  match s with
  | [] => match old with [] => new | _ => [] end
  | c :: s' =>
      match skip with
      | S k => replace_from old new s' k
      | O =>
          if startswith old s
          then new ++ match old with
                      | [] => c :: replace_from old new s' O
                      | _ :: old' => replace_from old new s' (length old')
                      end
          else c :: replace_from old new s' O
      end
  end.

Definition replace (old new s : list N) : list N := replace_from old new s O.

End Text.

(** ** [data.py]: text cleaning *)

Module Clean.
Import Text.

(** [CustomDataset.clean_text] (the method does not read [self]). *)
Definition clean_text (text : list N) : list N :=
  let text := strip text in
  let text := replace [NEWLINE] [] text in
  let text := replace [BACKTICK; BACKTICK] [] text in
  let text := replace [DQUOTE] [] text in
  text.

(** No leading and no trailing whitespace. *)
Definition trimmed (s : list N) : Prop :=
  (forall c, head s = Some c -> isspace c = false) /\
  (forall c, last s = Some c -> isspace c = false).

End Clean.

(** ** Python values, exceptions and effects *)

Module Py.

(** The values that hyperparameters, configuration attributes and keyword
    arguments take. A float is an IEEE 754 binary64 datum. *)
Inductive value :=
  | VNone
  | VBool (b : bool)
  | VInt (z : Z)
  | VFloat (f : spec_float)
  | VStr (s : string).

(** [bool(v)] *)
Definition truthy (v : value) : bool :=
  match v with
  | VNone => false
  | VBool b => b
  | VInt z => negb (z =? 0)
  | VFloat (S754_zero _) => false
  | VFloat _ => true
  | VStr s => negb (String.eqb s EmptyString)
  end.

(** Exceptions. An assertion failure carries the text of its message and
    the values formatted into it. *)
Inductive exn :=
  | AttributeError (name : string)
  | AssertionError (msg : string) (args : list (string * value))
  | TypeError (what : string)
  | IndexError
  | KeyError (key : string)
  | NotImplementedError (msg : string)
  | OSError (path : string)
  | SystemExit (code : Z)
  | HubError (name : value).

Definition result (A : Type) : Type := exn + A.

Definition is_ok {A} (r : result A) : bool :=
  match r with inr _ => true | inl _ => false end.

Definition is_assertion_error {A} (r : result A) : bool :=
  match r with inl (AssertionError _ _) => true | _ => false end.

(** A namespace or attribute dictionary: [argparse.Namespace], the
    [hparams] of a module, the attributes of a [PretrainedConfig]. *)
Abbreviation namespace := (gmap string value).

(** [getattr(ns, name)] *)
Definition getattr (ns : gmap string value) (name : string) : result value :=
  match ns !! name with
  | Some v => inr v
  | None => inl (AttributeError name)
  end.

(** [getattr(ns, name, default)] *)
Definition getattr_default (ns : gmap string value) (name : string)
    (default : value) : value :=
  match ns !! name with
  | Some v => v
  | None => default
  end.

(** [hasattr(ns, name)] *)
Definition hasattr (ns : gmap string value) (name : string) : bool :=
  bool_decide (is_Some (ns !! name)).

(** [setattr(ns, name, v)] *)
Definition setattr (ns : gmap string value) (name : string) (v : value)
    : gmap string value := <[name := v]> ns.

(** *** Ordering of numbers

    [a <= b] on [int], [bool] and [float] compares the exact real values;
    every comparison with a NaN is false; other mixes raise [TypeError]. *)
Inductive extended :=
  | NegInf
  | Dyadic (m e : Z)   (* m * 2^e *)
  | PosInf
  | NaN.

Definition number (v : value) : option extended :=
  match v with
  | VBool b => Some (Dyadic (if b then 1 else 0) 0)
  | VInt z => Some (Dyadic z 0)
  | VFloat (S754_zero _) => Some (Dyadic 0 0)
  | VFloat (S754_infinity s) => Some (if s then NegInf else PosInf)
  | VFloat S754_nan => Some NaN
  | VFloat (S754_finite s m e) =>
      Some (Dyadic (if s then Z.neg m else Z.pos m) e)
  | VNone | VStr _ => None
  end.

Definition extended_le (a b : extended) : bool :=
  match a, b with
  | NaN, _ | _, NaN => false
  | NegInf, _ => true
  | _, PosInf => true
  | _, NegInf => false
  | PosInf, _ => false
  | Dyadic m1 e1, Dyadic m2 e2 =>
      let e := Z.min e1 e2 in
      m1 * 2 ^ (e1 - e) <=? m2 * 2 ^ (e2 - e)
  end.

(** [a <= b] *)
Definition le (a b : value) : result bool :=
  match a, b with
  | VStr s1, VStr s2 => inr (String.leb s1 s2)
  | _, _ =>
      match number a, number b with
      | Some x, Some y => inr (extended_le x y)
      | _, _ => inl (TypeError "'<=' not supported")
      end
  end.

(** *** Effects

    What a run leaves behind: the lines printed and the calls made to the
    training framework. The type of recorded calls is a parameter. *)
Record world (call : Type) := World {
  stdout : list (list N);
  calls : list call;
}.
Arguments World {call}.
Arguments stdout {call}.
Arguments calls {call}.

Definition M (call A : Type) : Type := world call -> result A * world call.

Definition ret {call A} (a : A) : M call A := fun w => (inr a, w).

Definition raise {call A} (e : exn) : M call A := fun w => (inl e, w).

Definition bind {call A B} (m : M call A) (k : A -> M call B) : M call B :=
  fun w =>
    match m w with
    | (inr a, w') => k a w'
    | (inl e, w') => (inl e, w')
    end.

Definition lift {call A} (r : result A) : M call A := fun w => (r, w).

(** [print(line)] *)
Definition print {call} (line : list N) : M call unit :=
  fun w => (inr tt, World (stdout w ++ [line]) (calls w)).

(** A call into the framework. *)
Definition emit {call} (c : call) : M call unit :=
  fun w => (inr tt, World (stdout w) (calls w ++ [c])).

Definition bind_result {A B} (r : result A) (k : A -> result B) : result B :=
  match r with
  | inr a => k a
  | inl e => inl e
  end.

End Py.

Declare Scope py_scope.
Delimit Scope py_scope with py.
Notation "'let*' x ':=' m 'in' k" := (Py.bind m (fun x => k))
  (at level 10, x name, m at level 100, k at level 200) : py_scope.
Notation "'do' m 'then' k" := (Py.bind m (fun _ => k))
  (at level 10, m at level 100, k at level 200) : py_scope.
Notation "'let?' x ':=' r 'in' k" := (Py.bind_result r (fun x => k))
  (at level 10, x name, r at level 100, k at level 200) : py_scope.
Local Open Scope py_scope.

(** ** [data.py]: the dataset adapter *)

Module Data.
Import Text Py Clean.

(** A tensor: its shape and its elements in row-major order. *)
Record tensor := Tensor { shape : list nat; data : list Z }.

(** [t.numel()] *)
Definition numel (t : tensor) : nat := foldr Nat.mul 1%nat (shape t).

(** [t.squeeze()]: every dimension of size 1 is dropped. *)
Definition squeeze (t : tensor) : tensor :=
  Tensor (filter (fun d => d <> 1%nat) (shape t)) (data t).

(** The tokenizer is a collaborator; the code calls one method of it, with
    the keyword arguments [max_length], [padding], [truncation] and
    [return_tensors], and reads the returned dictionary by key. *)
Inductive padding_strategy := PadMaxLength | PadLongest | DoNotPad.
Inductive tensor_type := PT | TF | NP.

Record Tokenizer := {
  batch_encode_plus :
    list (list N) -> nat -> padding_strategy -> bool -> tensor_type ->
    result (gmap string tensor);
}.

(** [d[key]] on a dictionary with string keys. *)
Definition getitem {A} (d : gmap string A) (key : string) : result A :=
  match d !! key with
  | Some a => inr a
  | None => inl (KeyError key)
  end.

(** [col[index]] *)
Definition at_index {A} (col : list A) (index : nat) : result A :=
  match col !! index with
  | Some a => inr a
  | None => inl IndexError
  end.

(** The table handed to the constructor: the columns [text], [headline]
    and [title], and row selection [select(indices)]. *)
Module Frame.
Record t := Make {
  text : list (list N);
  headline : list (list N);
  title : list (list N);
}.

Fixpoint rows {A} (col : list A) (indices : list nat) : result (list A) :=
  match indices with
  | [] => inr []
  | i :: rest =>
      let? a := at_index col i in
      let? r := rows col rest in
      inr (a :: r)
  end.

Definition select (d : t) (indices : list nat) : result t :=
  let? a := rows (text d) indices in
  let? b := rows (headline d) indices in
  let? c := rows (title d) indices in
  inr (Make a b c).
End Frame.

(** The instance attributes of a [CustomDataset]: what [self.x = ...] has
    stored so far. Reading an attribute that was never stored raises
    [AttributeError]. *)
Inductive attr :=
  | AColumn (col : list (list N))
  | AFrame (d : Frame.t)
  | ALength (n : nat)
  | ATokenizer (tok : Tokenizer)
  | AFlag (b : bool).

Definition self_getattr (self : gmap string attr) (name : string)
    : result attr :=
  match self !! name with
  | Some a => inr a
  | None => inl (AttributeError name)
  end.

Definition as_column (a : attr) : result (list (list N)) :=
  match a with AColumn c => inr c | _ => inl (TypeError "not subscriptable") end.
Definition as_frame (a : attr) : result Frame.t :=
  match a with AFrame d => inr d | _ => inl (AttributeError "select") end.
Definition as_length (a : attr) : result nat :=
  match a with ALength n => inr n | _ => inl (TypeError "max_length") end.
Definition as_tokenizer (a : attr) : result Tokenizer :=
  match a with
  | ATokenizer t => inr t
  | _ => inl (AttributeError "batch_encode_plus")
  end.
Definition as_flag (a : attr) : result bool :=
  match a with
  | AFlag b => inr b
  | ALength n => inr (negb (Nat.eqb n 0))
  | AColumn c => inr (negb (Nat.eqb (length c) 0))
  | AFrame _ | ATokenizer _ => inr true
  end.

(** [if num_samples:] on [None] or an [int]. *)
Definition num_samples_set (num_samples : option Z) : bool :=
  match num_samples with
  | None => false
  | Some n => negb (n =? 0)
  end.

(** [list(range(0, num_samples))] *)
Definition range0 (num_samples : option Z) : list nat :=
  match num_samples with
  | None => []
  | Some n => seq 0 (Z.to_nat n)
  end.

(** [CustomDataset.__init__]. The object starts without instance
    attributes ([super().__init__()] is not called, and the base class
    [LightningDataModule] has no attribute [dataset]). *)
Definition __init__ (dataset : Frame.t) (tokenizer : Tokenizer)
    (input_length output_length : nat) (print_text : bool)
    (num_samples : option Z) : result (gmap string attr) :=
  let self : gmap string attr := ∅ in
  let self := <["text" := AColumn (Frame.text dataset)]> self in
  let self := <["headline" := AColumn (Frame.headline dataset)]> self in
  let self := <["title" := AColumn (Frame.title dataset)]> self in
  let? self :=
    if num_samples_set num_samples then
      let? a := self_getattr self "dataset" in
      let? d := as_frame a in
      let? d' := Frame.select d (range0 num_samples) in
      inr (<["dataset" := AFrame d']> self)
    else inr self in
  let self := <["input_length" := ALength input_length]> self in
  let self := <["tokenizer" := ATokenizer tokenizer]> self in
  let self := <["output_length" := ALength output_length]> self in
  let self := <["print_text" := AFlag print_text]> self in
  inr self.

(** [CustomDataset.__len__] *)
Definition __len__ (self : gmap string attr) : result nat :=
  let? a := self_getattr self "text" in
  let? col := as_column a in
  inr (length col).

Section Methods.
Context {call : Type}.

(** [CustomDataset.convert_to_features] *)
Definition convert_to_features (self : gmap string attr)
    (text headline : list N)
    : M call (gmap string tensor * gmap string tensor) :=
  let* p := lift (let? a := self_getattr self "print_text" in as_flag a) in
  do (if p
      then print (of_string "Input Text:  " ++ clean_text text)
      else ret tt) then
  let input_ := clean_text text in
  let target_ := clean_text headline in
  let* tok := lift (let? a := self_getattr self "tokenizer" in as_tokenizer a) in
  let* n := lift (let? a := self_getattr self "input_length" in as_length a) in
  let* source := lift (batch_encode_plus tok [input_] n PadMaxLength true PT) in
  let* tok := lift (let? a := self_getattr self "tokenizer" in as_tokenizer a) in
  let* m := lift (let? a := self_getattr self "output_length" in as_length a) in
  let* targets := lift (batch_encode_plus tok [target_] m PadMaxLength true PT) in
  ret (source, targets).

(** [CustomDataset.__getitem__] *)
Definition __getitem__ (self : gmap string attr) (index : nat)
    : M call (gmap string tensor) :=
  let* text := lift (let? a := self_getattr self "text" in
                     let? col := as_column a in at_index col index) in
  let* headline := lift (let? a := self_getattr self "headline" in
                         let? col := as_column a in at_index col index) in
  let* st := convert_to_features self text headline in
  let source := fst st in
  let targets := snd st in
  let* input_ids := lift (getitem source "input_ids") in
  let input_ids := squeeze input_ids in
  let* target_ids := lift (getitem targets "input_ids") in
  let target_ids := squeeze target_ids in
  let* src_mask := lift (getitem source "attention_mask") in
  let src_mask := squeeze src_mask in
  let* target_mask := lift (getitem targets "attention_mask") in
  let target_mask := squeeze target_mask in
  ret (<["input_ids" := input_ids]>
       (<["attention_mask" := src_mask]>
        (<["labels" := target_ids]>
         (<["target_mask" := target_mask]> ∅)))).

End Methods.

(** What the caller asks of the tokenizer with [padding="max_length"] and
    [truncation=True]: for a batch of [b] texts both returned tensors have
    shape [b x max_length]. *)
Definition pads_and_truncates (tok : Tokenizer) : Prop :=
  forall texts max_length,
    exists enc ids mask,
      batch_encode_plus tok texts max_length PadMaxLength true PT = inr enc /\
      enc !! "input_ids" = Some ids /\
      enc !! "attention_mask" = Some mask /\
      shape ids = [length texts; max_length] /\
      shape mask = [length texts; max_length].

(** A tokenizer to run the adapter with: one token per code point, 1 as
    the mask of a real token, 0 as padding. It serves the one mode the
    adapter asks for. *)
Definition pad_to {A} (n : nat) (x : A) (l : list A) : list A :=
  take n l ++ replicate (n - length l) x.

Definition char_tokenizer : Tokenizer := {|
  batch_encode_plus texts max_length padding truncation return_tensors :=
    match padding, truncation, return_tensors with
    | PadMaxLength, true, PT =>
        let ids (s : list N) := pad_to max_length 0 (map Z.of_N s) in
        let mask (s : list N) := pad_to max_length 0 (map (fun _ => 1) s) in
        inr (<["input_ids" :=
                 Tensor [length texts; max_length] (concat (map ids texts))]>
             (<["attention_mask" :=
                 Tensor [length texts; max_length] (concat (map mask texts))]>
              ∅))
    | _, _, _ => inl (TypeError "unsupported mode")
    end
|}.

End Data.

(** ** [lightning_base.py]: the training-module configurator *)

Module Lightning.
Import Py.

(** [nd in n] on attribute and parameter names. *)
Definition str_in (nd n : string) : bool :=
  Text.contains (Text.of_string nd) (Text.of_string n).

(** *** Collaborators

    A model exposes its named parameters (a parameter is identified by a
    number); a configuration is its attribute dictionary. *)
Record Model := {
  named_parameters : list (string * nat);
}.

(** The pretrained-model hub: the three [from_pretrained] loaders, with
    the arguments the constructor passes. *)
Class Hub := {
  AutoConfig_from_pretrained :
    value -> option value -> value -> gmap string value ->
    result (gmap string value);
  AutoTokenizer_from_pretrained :
    value -> value -> result Data.Tokenizer;
  AutoModelForSeq2SeqLM_from_pretrained :
    value -> bool -> gmap string value -> value -> result Model;
}.

(** The scheduler factories of [transformers.optimization]. *)
Inductive schedule_factory :=
  | get_linear_schedule_with_warmup
  | get_cosine_schedule_with_warmup
  | get_cosine_with_hard_restarts_schedule_with_warmup
  | get_polynomial_decay_schedule_with_warmup.

(** The registry [arg_to_scheduler]. *)
Definition arg_to_scheduler : gmap string schedule_factory :=
  <["linear" := get_linear_schedule_with_warmup]>
  (<["cosine" := get_cosine_schedule_with_warmup]>
   (<["cosine_w_restarts" :=
        get_cosine_with_hard_restarts_schedule_with_warmup]>
    (<["polynomial" := get_polynomial_decay_schedule_with_warmup]> ∅))).

(** An optimizer parameter group, and an optimizer as the constructor call
    that built it, keyword arguments included. *)
Record param_group := {
  params : list nat;
  weight_decay : value;
}.

Inductive Optimizer :=
  | Adafactor (groups : list param_group) (lr : value)
      (scale_parameter relative_step : bool)
  | AdamW (groups : list param_group) (lr eps : value).

(** A schedule as the factory call that built it. *)
Record Schedule := {
  factory : schedule_factory;
  optimizer : Optimizer;
  num_warmup_steps : value;
  num_training_steps : value;
}.

(** The dictionary [get_lr_scheduler] returns. *)
Record scheduler_dict := {
  scheduler : Schedule;
  interval : string;
  frequency : Z;
}.

(** *** [BaseTransformer] *)
Record BaseTransformer := {
  hparams : gmap string value;
  step_count : Z;
  output_dir : string;
  model_name_or_path : value;
  config : gmap string value;
  tokenizer : Data.Tokenizer;
  model : Model;
  target_lens : gmap string value;
  opt : option Optimizer;
}.

Definition set_opt (self : BaseTransformer) (o : Optimizer)
    : BaseTransformer :=
  {| hparams := hparams self; step_count := step_count self;
     output_dir := output_dir self;
     model_name_or_path := model_name_or_path self;
     config := config self; tokenizer := tokenizer self;
     model := model self; target_lens := target_lens self;
     opt := Some o |}.

Definition set_target_lens (self : BaseTransformer)
    (tl : gmap string value) : BaseTransformer :=
  {| hparams := hparams self; step_count := step_count self;
     output_dir := output_dir self;
     model_name_or_path := model_name_or_path self;
     config := config self; tokenizer := tokenizer self;
     model := model self; target_lens := tl;
     opt := opt self |}.

(** [Path(v)] *)
Definition Path (v : value) : result string :=
  match v with
  | VStr s => inr s
  | _ => inl (TypeError "expected str, bytes or os.PathLike object")
  end.

(** [x if x else y], both read from the hyperparameters. *)
Definition first_truthy (hp : gmap string value) (x y : string)
    : result value :=
  let? a := getattr hp x in
  if truthy a then getattr hp x else getattr hp y.

Definition extra_model_params : list string :=
  ["encoder_layerdrop"; "decoder_layerdrop"; "dropout"; "attention_dropout"].

(** The guard of the loop, [if getattr(self.hparams, p, None):]. *)
Definition override_set (hp : gmap string value) (p : string) : bool :=
  truthy (getattr_default hp p VNone).

(** One round of the loop over [extra_model_params]. *)
Definition apply_extra_model_param (hp : gmap string value)
    (config : gmap string value) (p : string) : result (gmap string value) :=
  if override_set hp p then
    if hasattr config p then
      let? v := getattr hp p in
      inr (setattr config p v)
    else
      inl (AssertionError
             ("model config doesn't have a `" ++ p ++ "` attribute") [])
  else inr config.

Fixpoint apply_extra_model_params (hp : gmap string value)
    (config : gmap string value) (ps : list string)
    : result (gmap string value) :=
  match ps with
  | [] => inr config
  | p :: rest =>
      let? config := apply_extra_model_param hp config p in
      apply_extra_model_params hp config rest
  end.

(** The two assertions on [target_lens]. *)
Definition check_target_lens (tl : gmap string value) : result unit :=
  let shown := [("train", getattr_default tl "train" VNone);
                ("val", getattr_default tl "val" VNone);
                ("test", getattr_default tl "test" VNone)] in
  let? train := Data.getitem tl "train" in
  let? val := Data.getitem tl "val" in
  let? ok := le train val in
  if negb ok then inl (AssertionError "target_lens: " shown) else
  let? train := Data.getitem tl "train" in
  let? test := Data.getitem tl "test" in
  let? ok := le train test in
  if negb ok then inl (AssertionError "target_lens: " shown) else
  inr tt.

Section Init.
Context `{Hub}.

(** The first part of [BaseTransformer.__init__(hparams, config,
    tokenizer, num_labels, model, **config_kwargs)]: everything up to and
    including the resolution of the model. [self.target_lens] is not yet
    assigned. *)
Definition resolve_components (hp : gmap string value)
    (config : option (gmap string value))
    (tokenizer : option Data.Tokenizer)
    (num_labels : option value)
    (model : option Model)
    (config_kwargs : gmap string value) : result BaseTransformer :=
  let step_count := 0 in
  let? d := getattr hp "output_dir" in
  let? output_dir := Path d in
  let? c := getattr hp "cache_dir" in
  let? cache_dir := if truthy c then getattr hp "cache_dir" else inr VNone in
  let? model_name_or_path := getattr hp "model_name_or_path" in
  let? config :=
    match config with
    | None =>
        let? name := first_truthy hp "config_name" "model_name_or_path" in
        AutoConfig_from_pretrained name num_labels cache_dir config_kwargs
    | Some config => inr config
    end in
  let? config := apply_extra_model_params hp config extra_model_params in
  let? tokenizer :=
    match tokenizer with
    | None =>
        let? name := first_truthy hp "tokenizer_name" "model_name_or_path" in
        AutoTokenizer_from_pretrained name cache_dir
    | Some tokenizer => inr tokenizer
    end in
  let? model :=
    match model with
    | None =>
        let? name := getattr hp "model_name_or_path" in
        let? name' := getattr hp "model_name_or_path" in
        let? from_tf :=
          match name' with
          | VStr s => inr (str_in ".ckpt" s)
          | _ => inl (TypeError "argument is not iterable")
          end in
        AutoModelForSeq2SeqLM_from_pretrained name from_tf config cache_dir
    | Some model => inr model
    end in
  inr {| hparams := hp; step_count := step_count; output_dir := output_dir;
         model_name_or_path := model_name_or_path; config := config;
         tokenizer := tokenizer; model := model; target_lens := ∅;
         opt := None |}.

(** [BaseTransformer.__init__]: the components, then [self.target_lens]
    and the two assertions on it. *)
Definition __init__ (hp : gmap string value)
    (config : option (gmap string value))
    (tokenizer : option Data.Tokenizer)
    (num_labels : option value)
    (model : option Model)
    (config_kwargs : gmap string value) : result BaseTransformer :=
  let? self :=
    resolve_components hp config tokenizer num_labels model config_kwargs in
  let? train := getattr (hparams self) "max_target_length" in
  let? val := getattr (hparams self) "val_max_target_length" in
  let? test := getattr (hparams self) "test_max_target_length" in
  let self :=
    set_target_lens self
      (<["train" := train]> (<["val" := val]> (<["test" := test]> ∅))) in
  let? _ := check_target_lens (target_lens self) in
  inr self.

End Init.

(** *** Methods a task module supplies

    [BaseTransformer] calls [validation_step], [validation_end] and
    [total_steps] on [self] without defining them, and defines
    [get_dataloader] only to raise: a subclass supplies them. A method that
    no class defines raises [AttributeError] when it is looked up. *)
Section Methods.
Context {call Batch Output Loader : Type}.

Record Subclass := {
  def_validation_step :
    option (BaseTransformer -> Batch -> Z -> M call (BaseTransformer * Output));
  def_validation_end :
    option (BaseTransformer -> list Output ->
            M call (BaseTransformer * Output));
  def_total_steps : option (BaseTransformer -> result value);
  def_get_dataloader :
    option (BaseTransformer -> string -> value -> bool -> result Loader);
}.

Context (sub : Subclass).

(** [self.validation_step(batch, batch_nb)] *)
Definition validation_step (self : BaseTransformer) (batch : Batch)
    (batch_nb : Z) : M call (BaseTransformer * Output) :=
  match def_validation_step sub with
  | Some f => f self batch batch_nb
  | None => raise (AttributeError "validation_step")
  end.

(** [self.validation_end(outputs)] *)
Definition validation_end (self : BaseTransformer) (outputs : list Output)
    : M call (BaseTransformer * Output) :=
  match def_validation_end sub with
  | Some f => f self outputs
  | None => raise (AttributeError "validation_end")
  end.

(** [self.total_steps()] *)
Definition total_steps (self : BaseTransformer) : result value :=
  match def_total_steps sub with
  | Some f => f self
  | None => inl (AttributeError "total_steps")
  end.

(** [BaseTransformer.test_step] *)
Definition test_step (self : BaseTransformer) (batch : Batch) (batch_nb : Z)
    : M call (BaseTransformer * Output) :=
  validation_step self batch batch_nb.

(** [BaseTransformer.test_epoch_end] *)
Definition test_epoch_end (self : BaseTransformer) (outputs : list Output)
    : M call (BaseTransformer * Output) :=
  validation_end self outputs.





(** [arg_to_scheduler[key]] *)
Definition registry_lookup (key : value) : result schedule_factory :=
  match key with
  | VStr s => Data.getitem arg_to_scheduler s
  | _ => inl (KeyError EmptyString)
  end.

(** [BaseTransformer.get_lr_scheduler] *)
Definition get_lr_scheduler (self : BaseTransformer) : result scheduler_dict :=
  let? key := getattr (hparams self) "lr_scheduler" in
  let? get_schedule_func := registry_lookup key in
  let? o := match opt self with
            | Some o => inr o
            | None => inl (AttributeError "opt")
            end in
  let? warmup := getattr (hparams self) "warmup_steps" in
  let? steps := total_steps self in
  let scheduler := {| factory := get_schedule_func; optimizer := o;
                      num_warmup_steps := warmup;
                      num_training_steps := steps |} in
  inr {| scheduler := scheduler; interval := "step"; frequency := 1 |}.

Definition no_decay : list string := ["bias"; "LayerNorm.weight"].

(** [any(nd in n for nd in no_decay)] *)
Definition any_no_decay (n : string) : bool :=
  existsb (fun nd => str_in nd n) no_decay.

(** The list [optimizer_grouped_parameters]. *)
Definition optimizer_grouped_parameters (self : BaseTransformer)
    : result (list param_group) :=
  let model := model self in
  let decayed :=
    map snd (List.filter (fun np => negb (any_no_decay (fst np)))
                         (named_parameters model)) in
  let? wd := getattr (hparams self) "weight_decay" in
  let not_decayed :=
    map snd (List.filter (fun np => any_no_decay (fst np))
                         (named_parameters model)) in
  inr [ {| params := decayed; weight_decay := wd |};
        {| params := not_decayed;
           weight_decay := VFloat (S754_zero false) |} ].

(** [BaseTransformer.configure_optimizers]: stores the optimizer in
    [self.opt] and returns the two one-element lists. *)
Definition configure_optimizers (self : BaseTransformer)
    : result (BaseTransformer * (list Optimizer * list scheduler_dict)) :=
  let? groups := optimizer_grouped_parameters self in
  let? flag := getattr (hparams self) "adafactor" in
  let? optimizer :=
    if truthy flag then
      let? lr := getattr (hparams self) "learning_rate" in
      inr (Adafactor groups lr false false)
    else
      let? lr := getattr (hparams self) "learning_rate" in
      let? eps := getattr (hparams self) "adam_epsilon" in
      inr (AdamW groups lr eps) in
  let self := set_opt self optimizer in
  let? scheduler := get_lr_scheduler self in
  inr (self, ([optimizer], [scheduler])).

End Methods.

(** The keyword arguments an optimizer was built with. *)
Definition optimizer_groups (o : Optimizer) : list param_group :=
  match o with Adafactor g _ _ _ => g | AdamW g _ _ => g end.

Definition optimizer_lr (o : Optimizer) : value :=
  match o with Adafactor _ lr _ _ => lr | AdamW _ lr _ => lr end.

Definition optimizer_eps (o : Optimizer) : option value :=
  match o with Adafactor _ _ _ _ => None | AdamW _ _ eps => Some eps end.

Definition is_adafactor (o : Optimizer) : bool :=
  match o with Adafactor _ _ _ _ => true | AdamW _ _ _ => false end.

End Lightning.

(** ** [lightning_base.py]: argument parsers and [generic_train] *)

Module Cli.
Import Py Lightning.

Definition float (m : positive) (e : Z) : value :=
  VFloat (S754_finite false m e).

(** *** [argparse]

    An argument as [add_argument] declares it: the option string, the
    explicit [dest] if any, the [default] if any, [required] and the
    action. *)
Inductive arg_type := TyNone | TyStr | TyInt | TyFloat | TyBool.
Inductive arg_action := Store | StoreTrue.

Record argument := Argument {
  flag : string;
  dest : option string;
  default : option value;
  type : arg_type;
  required : bool;
  action : arg_action;
  choices : option (list string);
}.

(** The attribute an argument is stored under: [dest], or the option
    string without its two leading dashes. *)
Definition dest_of (a : argument) : string :=
  match dest a with
  | Some d => d
  | None => String.substring 2 (String.length (flag a) - 2) (flag a)
  end.

(** The value stored when the option is not given. *)
Definition default_of (a : argument) : value :=
  match default a, action a with
  | Some v, _ => v
  | None, StoreTrue => VBool false
  | None, Store => VNone
  end.

(** [parser.add_argument(flag, ...)] *)
Definition add_argument (parser : list argument) (flag : string)
    (dest : option string) (default : option value) (type : arg_type)
    (required : bool) (action : arg_action) : list argument :=
  parser ++ [Argument flag dest default type required action None].

(** [parser.add_argument(flag, ..., choices=...)] *)
Definition add_argument_choices (parser : list argument) (flag : string)
    (default : option value) (choices : list string) : list argument :=
  parser ++ [Argument flag None default TyStr false Store (Some choices)].

(** The keys of the registry, [arg_to_scheduler_choices]. *)
Definition arg_to_scheduler_choices : list string :=
  ["cosine"; "cosine_w_restarts"; "linear"; "polynomial"].

(** A converted value that the argument can store: the conversion [type]
    yields a value of that type, a [store_true] option stores [True], and
    the value is one of the [choices] when there are any. *)
Definition accepts (a : argument) (v : value) : bool :=
  match action a, type a, v with
  | StoreTrue, _, VBool true => true
  | StoreTrue, _, _ => false
  | Store, TyStr, VStr s =>
      match choices a with
      | Some cs => existsb (String.eqb s) cs
      | None => true
      end
  | Store, TyInt, VInt _ => true
  | Store, TyFloat, VFloat _ => true
  | Store, TyBool, VBool _ => true
  | Store, _, _ => false
  end.

(** [parser.parse_args(argv)], with the options given as pairs of an
    option string and its converted value: every declared argument yields
    one attribute; an option that was not declared, a value that the
    argument does not accept, or a required option that is not given, ends
    the program. *)
Fixpoint assoc (k : string) (l : list (string * value)) : option value :=
  match l with
  | [] => None
  | (k', v) :: l' => if String.eqb k k' then Some v else assoc k l'
  end.

Fixpoint store_all (parser : list argument) (given : list (string * value))
    (ns : gmap string value) : result (gmap string value) :=
  match parser with
  | [] => inr ns
  | a :: rest =>
      match assoc (flag a) given with
      | Some v =>
          if accepts a v then store_all rest given (<[dest_of a := v]> ns)
          else inl (SystemExit 2)
      | None =>
          if required a then inl (SystemExit 2)
          else store_all rest given (<[dest_of a := default_of a]> ns)
      end
  end.

Definition declared (parser : list argument) (f : string) : bool :=
  existsb (fun a => String.eqb (flag a) f) parser.

Definition parse_args (parser : list argument) (given : list (string * value))
    : result (gmap string value) :=
  if forallb (fun g => declared parser (fst g)) given
  then store_all parser given ∅
  else inl (SystemExit 2).

(** [BaseTransformer.add_model_specific_args] *)
Definition add_model_specific_args (parser : list argument) (root_dir : string)
    : list argument :=
  let parser := add_argument parser "--model_name_or_path" None (Some VNone)
                  TyStr true Store in
  let parser := add_argument parser "--config_name" None (Some (VStr EmptyString))
                  TyStr false Store in
  let parser := add_argument parser "--tokenizer_name" None (Some VNone)
                  TyStr false Store in
  let parser := add_argument parser "--cache_dir" None (Some (VStr EmptyString))
                  TyStr false Store in
  let parser := add_argument parser "--encoder_layerdrop" None None
                  TyFloat false Store in
  let parser := add_argument parser "--decoder_layerdrop" None None
                  TyFloat false Store in
  let parser := add_argument parser "--dropout" None None
                  TyFloat false Store in
  let parser := add_argument parser "--attention_dropout" None None
                  TyFloat false Store in
  let parser := add_argument parser "--learning_rate" None
                  (Some (float 7378697629483821 (-67))) TyFloat false Store in
  let parser := add_argument_choices parser "--lr_scheduler"
                  (Some (VStr "linear")) arg_to_scheduler_choices in
  let parser := add_argument parser "--weight_decay" None
                  (Some (float 5764607523034235 (-59))) TyFloat false Store in
  let parser := add_argument parser "--adam_epsilon" None
                  (Some (float 6044629098073146 (-79))) TyFloat false Store in
  let parser := add_argument parser "--warmup_steps" None (Some (VInt 0))
                  TyInt false Store in
  let parser := add_argument parser "--num_workers" None (Some (VInt 4))
                  TyInt false Store in
  let parser := add_argument parser "--num_train_epochs" (Some "max_epochs")
                  (Some (VInt 10)) TyInt false Store in
  let parser := add_argument parser "--train_batch_size" None
                  (Some (VInt 32)) TyInt false Store in
  let parser := add_argument parser "--eval_batch_size" None
                  (Some (VInt 32)) TyInt false Store in
  let parser := add_argument parser "--adafactor" None (Some (VBool true))
                  TyBool false Store in
  let parser := add_argument parser "--save_path" None (Some (VStr EmptyString))
                  TyStr false Store in
  let parser := add_argument parser "--hf_checkpoint" None
                  (Some (VBool false)) TyBool false Store in
  let parser := add_argument parser "--load_checkpoint" None
                  (Some (VBool false)) TyBool false Store in
  let parser := add_argument parser "--data_path" None
                  (Some (VStr "../data")) TyStr false Store in
  let parser := add_argument parser "--deepspeed_stage_3" None
                  (Some (VBool false)) TyBool false Store in
  let parser := add_argument parser "--eval_beams" None (Some (VInt 5))
                  TyBool false Store in
  parser.

(** [add_generic_args] *)
Definition add_generic_args (parser : list argument) (root_dir : string)
    : list argument :=
  let parser := add_argument parser "--output_dir" None (Some VNone)
                  TyStr false Store in
  let parser := add_argument parser "--fp16" None (Some (VBool false))
                  TyBool false Store in
  let parser := add_argument parser "--fp16_opt_level" None
                  (Some (VStr "O2")) TyStr false Store in
  let parser := add_argument parser "--n_tpu_cores" (Some "tpu_cores") None
                  TyInt false Store in
  let parser := add_argument parser "--max_grad_norm"
                  (Some "gradient_clip_val")
                  (Some (float 4503599627370496 (-52))) TyFloat false Store in
  let parser := add_argument parser "--do_train" None None
                  TyNone false StoreTrue in
  let parser := add_argument parser "--do_predict" None None
                  TyNone false StoreTrue in
  let parser := add_argument parser "--gradient_accumulation_steps"
                  (Some "accumulate_grad_batches") (Some (VInt 1))
                  TyInt false Store in
  let parser := add_argument parser "--seed" None (Some (VInt 42))
                  TyInt false Store in
  let parser := add_argument parser "--data_dir" None (Some VNone)
                  TyStr false Store in
  let parser := add_argument parser "--logger_name" None (Some VNone)
                  TyStr false Store in
  let parser := add_argument parser "--wb_name" None (Some (VStr EmptyString))
                  TyStr false Store in
  let parser := add_argument parser "--wb_project" None (Some (VStr EmptyString))
                  TyStr false Store in
  let parser := add_argument parser "--wb_entity" None
                  (Some (VStr "jordanclive")) TyStr false Store in
  let parser := add_argument parser "--id" None (Some (VStr EmptyString))
                  TyStr false Store in
  let parser := add_argument parser "--resume_from_checkpoint" None
                  (Some VNone) TyStr false Store in
  let parser := add_argument parser "--monitor" None (Some (VStr "val_loss"))
                  TyStr false Store in
  let parser := add_argument parser "--full_test" None (Some (VBool false))
                  TyBool false Store in
  let parser := add_argument parser "--save_path_for_test" None
                  (Some (VStr EmptyString)) TyStr false Store in
  let parser := add_argument parser "--val_check_interval" None
                  (Some (float 5404319552844595 (-55))) TyFloat false Store in
  let parser := add_argument parser "--num_sanity_val_steps" None
                  (Some (VInt (-1))) TyInt false Store in
  let parser := add_argument parser "--debug_mode" None (Some (VBool false))
                  TyBool false Store in
  parser.

(** The parser the two functions build together. *)
Definition both_parsers : list argument :=
  add_model_specific_args (add_generic_args [] EmptyString) EmptyString.

(** *** [generic_train]

    The calls into the framework and the operating system that a run
    makes, in order; [Trainer] is the trainer as
    [Trainer.from_argparse_args] was asked to build it. *)
Inductive train_param :=
  | Plain (v : value)
  | DeepSpeedPlugin (stage : Z)
      (offload_optimizer offload_parameters load_full_weights : bool).

Record ModelCheckpoint := {
  dirpath : string;
  monitor : value;
  mode : string;
  save_top_k : Z;
}.

Inductive Logger :=
  | LoggerFlag (b : bool)
  | WandbLogger (id name project entity : value).

Record Trainer := {
  trainer_args : gmap string value;
  callbacks : list ModelCheckpoint;
  logger : Logger;
  train_params : gmap string train_param;
}.

Inductive call :=
  | seed_everything (seed : value)
  | mkdir (path : string) (exist_ok : bool)
  | generate_id
  | from_argparse_args (t : Trainer)
  | fit (t : Trainer) (model : BaseTransformer).

(** What the surroundings answer: whether a directory can be created, and
    the run identifier [wandb] generates. *)
Class Surroundings := {
  mkdir_succeeds : string -> bool;
  generated_id : value;
}.

Section GenericTrain.
Context `{Surroundings}.

(** [generic_train(model, args, logger=..., **extra_train_kwargs)]; the
    parameters [early_stopping_callback], [extra_callbacks],
    [checkpoint_callback] and [logging_callback] are not read. *)
Definition generic_train (model : BaseTransformer) (args : gmap string value)
    (logger : Logger) (extra_train_kwargs : gmap string value)
    : M call Trainer :=
  let* seed := lift (getattr args "seed") in
  do emit (seed_everything seed) then
  let* d := lift (getattr (hparams model) "output_dir") in
  let* odir := lift (Path d) in
  do emit (mkdir odir true) then
  do (if mkdir_succeeds odir then ret tt else raise (OSError odir)) then
  let* val_metric := lift (getattr args "val_metric") in
  let checkpoint_callback :=
    {| dirpath := odir; monitor := val_metric; mode := "max";
       save_top_k := 1 |} in
  let train_params : gmap string train_param := ∅ in
  let* a := lift (getattr (hparams model) "accumulate_grad_batches") in
  let train_params := <["accumulate_grad_batches" := Plain a]> train_params in
  let train_params := <["precision" := Plain (VInt 16)]> train_params in
  let train_params :=
    <["strategy" := Plain (VStr "deepspeed_stage_2")]> train_params in
  let* stage3 := lift (getattr (hparams model) "deepspeed_stage_3") in
  let train_params :=
    if truthy stage3 then
      let train_params :=
        <["strategy" := DeepSpeedPlugin 3 true true true]> train_params in
      <["strategy" := Plain (VStr "ddp_sharded")]> train_params
    else train_params in
  let train_params :=
    <["profiler" := Plain (getattr_default extra_train_kwargs "profiler" VNone)]>
      train_params in
  let* g := lift (getattr args "gradient_clip_val") in
  let train_params := <["gradient_clip_val" := Plain g]> train_params in
  let* v := lift (getattr args "val_check_interval") in
  let train_params := <["val_check_interval" := Plain v]> train_params in
  let* n := lift (getattr args "num_sanity_val_steps") in
  let train_params := <["num_sanity_val_steps" := Plain n]> train_params in
  let* gpus := lift (getattr args "gpus") in
  let train_params := <["gpus" := Plain gpus]> train_params in
  let* local := lift (getattr (hparams model) "local") in
  let train_params :=
    if truthy local then
      <["strategy" := Plain VNone]>
      (<["gpus" := Plain (VInt 0)]>
       (<["num_sanity_val_steps" := Plain (VInt 10)]>
        (<["precision" := Plain (VInt 32)]> train_params)))
    else train_params in
  let* r := lift (getattr args "resume_from_checkpoint") in
  let* train_params :=
    match r with
    | VNone => ret train_params
    | _ =>
        let* r := lift (getattr args "resume_from_checkpoint") in
        ret (<["resume_from_checkpoint" := Plain r]> train_params)
    end in
  let* debug := lift (getattr args "debug_mode") in
  let train_params :=
    if truthy debug then
      <["limit_val_batches" := Plain (VInt 2)]>
      (<["limit_train_batches" := Plain (VInt 20)]> train_params)
    else train_params in
  let* name := lift (getattr args "logger_name") in
  let* logger :=
    match name with
    | VStr "wandb" =>
        let* i := lift (getattr args "id") in
        let* id_ :=
          match i with
          | VNone => do emit generate_id then ret generated_id
          | _ => lift (getattr args "id")
          end in
        let* wb_name := lift (getattr args "wb_name") in
        let* wb_project := lift (getattr args "wb_project") in
        let* wb_entity := lift (getattr args "wb_entity") in
        ret (WandbLogger id_ wb_name wb_project wb_entity)
    | _ => ret logger
    end in
  let trainer :=
    {| trainer_args := args; callbacks := [checkpoint_callback];
       logger := logger; train_params := train_params |} in
  do emit (from_argparse_args trainer) then
  do emit (fit trainer model) then
  ret trainer.

End GenericTrain.

(** The trainer was built during a run. *)
Definition trainer_constructed (w : world call) : Prop :=
  exists t, from_argparse_args t ∈ calls w.

End Cli.

(** ** A small setting to run the code in *)

Module Fixture.
Import Py Lightning Cli.

(** A hub with one checkpoint. Its configuration has the attributes of a
    T5 configuration: the dropout rate is called [dropout_rate], and there
    is no [dropout], [attention_dropout] or layer-drop attribute. *)
Definition t5_config : gmap string value :=
  <["d_model" := VInt 512]>
  (<["dropout_rate" := float 7205759403792794 (-56)]>
   (<["num_layers" := VInt 8]> ∅)).

Definition t5_model : Model := {|
  named_parameters :=
    [("encoder.weight", 0%nat); ("encoder.bias", 1%nat);
     ("encoder.LayerNorm.weight", 2%nat); ("lm_head.weight", 3%nat)]
|}.

#[export] Instance hub : Hub := {|
  AutoConfig_from_pretrained name num_labels cache_dir kwargs :=
    match name with
    | VStr "google/flan-t5-small" => inr (kwargs ∪ t5_config)
    | _ => inl (HubError name)
    end;
  AutoTokenizer_from_pretrained name cache_dir :=
    match name with
    | VStr "google/flan-t5-small" => inr Data.char_tokenizer
    | _ => inl (HubError name)
    end;
  AutoModelForSeq2SeqLM_from_pretrained name from_tf config cache_dir :=
    match name with
    | VStr "google/flan-t5-small" => inr t5_model
    | _ => inl (HubError name)
    end
|}.

#[export] Instance surroundings : Surroundings := {|
  mkdir_succeeds path := true;
  generated_id := VStr "run0";
|}.

(** Hyperparameters: the attributes the constructor and the optimizer
    read, with the defaults of the parsers, then [extra], then the three
    target lengths a task module adds. *)
Definition base_hparams : gmap string value :=
  <["output_dir" := VStr "out"]>
  (<["cache_dir" := VStr EmptyString]>
   (<["model_name_or_path" := VStr "google/flan-t5-small"]>
    (<["config_name" := VStr EmptyString]>
     (<["tokenizer_name" := VNone]>
      (<["weight_decay" := float 5764607523034235 (-59)]>
       (<["adafactor" := VBool true]>
        (<["learning_rate" := float 7378697629483821 (-67)]>
         (<["adam_epsilon" := float 6044629098073146 (-79)]>
          (<["lr_scheduler" := VStr "linear"]>
           (<["warmup_steps" := VInt 0]> ∅)))))))))).

Definition with_target_lens (train val test : Z) (ns : gmap string value)
    : gmap string value :=
  <["max_target_length" := VInt train]>
  (<["val_max_target_length" := VInt val]>
   (<["test_max_target_length" := VInt test]> ns)).

Definition hparams_with (extra : list (string * value)) (train val test : Z)
    : gmap string value :=
  with_target_lens train val test (list_to_map extra ∪ base_hparams).

(** What the hub resolves for these hyperparameters. *)
Definition resolved (hp : gmap string value) : BaseTransformer := {|
  hparams := hp; step_count := 0; output_dir := "out";
  model_name_or_path := VStr "google/flan-t5-small";
  config := t5_config; tokenizer := Data.char_tokenizer; model := t5_model;
  target_lens := ∅; opt := None
|}.

(** The namespace of a command line that gives the model and the output
    directory. *)
Definition command_line : list (string * value) :=
  [("--model_name_or_path", VStr "google/flan-t5-small");
   ("--output_dir", VStr "out")].

Definition parsed_command_line : gmap string value :=
  match parse_args both_parsers command_line with
  | inr ns => ns
  | inl _ => ∅
  end.

(** The namespace of any command line ([∅] when the parse fails). *)
Definition parsed (given : list (string * value)) : gmap string value :=
  match parse_args both_parsers given with
  | inr ns => ns
  | inl _ => ∅
  end.

(** A complete setting for [generic_train]: the parsed namespace with the
    attributes [val_metric] and [gpus], and a model whose hyperparameters
    are that namespace with [local]. *)
Definition train_args : gmap string value :=
  <["val_metric" := VStr "val_loss"]>
  (<["gpus" := VInt 1]> parsed_command_line).

Definition train_model : BaseTransformer :=
  resolved (<["local" := VBool false]> train_args).

(** A task module: the total number of steps is fixed, validation returns
    the batch index. *)
Definition task : Subclass (call := call) (Batch := list Z) (Output := Z)
                           (Loader := string) := {|
  def_validation_step := Some (fun self batch batch_nb => ret (self, batch_nb));
  def_validation_end := Some (fun self outputs => ret (self, 0));
  def_total_steps := Some (fun self => inr (VInt 1000));
  def_get_dataloader := None;
|}.

End Fixture.

(** * Properties *)

(** ** Text cleaning *)

Section CleanText.
Import Text Clean.

Lemma startswith_spec (pat s : list N) :
  startswith pat s = true <-> exists rest, s = pat ++ rest.
Proof.
  revert s. induction pat as [|p pat IH]; intros s; simpl.
  - split; eauto.
  - destruct s as [|c s]; simpl.
    + split; [discriminate | intros [rest Hr]; discriminate].
    + rewrite andb_true_iff, N.eqb_eq, IH. split.
      * intros [-> [rest ->]]. eauto.
      * intros [rest Hr]. injection Hr as -> ->. eauto.
Qed.

(** [contains] is the substring test. *)
Lemma contains_spec (pat s : list N) :
  contains pat s = true <-> exists before after, s = before ++ pat ++ after.
Proof.
  induction s as [|c s IH].
  - simpl. rewrite orb_false_r, startswith_spec. split.
    + intros [rest Hr]. exists [], rest. exact Hr.
    + intros [before [after Hs]]. destruct before; simpl in Hs.
      * eauto.
      * discriminate.
  - cbn [contains]. rewrite orb_true_iff, startswith_spec, IH. split.
    + intros [[rest Hr] | [before [after Hs]]].
      * exists [], rest. exact Hr.
      * exists (c :: before), after. simpl. now rewrite Hs.
    + intros [before [after Hs]]. destruct before as [|b before]; simpl in Hs.
      * left. eauto.
      * right. injection Hs as _ Hs. eauto.
Qed.

(** Replacing by the empty string only deletes characters. *)
Lemma replace_from_deletes (old s : list N) (skip : nat) (x : N) :
  x ∈ replace_from old [] s skip -> x ∈ s.
Proof.
  revert skip. induction s as [|c s IH]; intros skip; simpl.
  - destruct old; intros Hx; inversion Hx.
  - destruct skip as [|k].
    + destruct (startswith old (c :: s)).
      * destruct old; simpl; rewrite ?elem_of_cons; intros Hx.
        -- destruct Hx as [Hx | Hx]; eauto.
        -- right. eauto.
      * rewrite !elem_of_cons. intros [Hx | Hx]; eauto.
    + rewrite elem_of_cons. intros Hx. right. eauto.
Qed.

Lemma replace_deletes (old s : list N) (x : N) :
  x ∈ replace old [] s -> x ∈ s.
Proof. apply replace_from_deletes. Qed.

(** Deleting a single character leaves none of it. *)
Lemma replace_char (c : N) (s : list N) :
  replace [c] [] s = List.filter (fun x => negb (c =? x)%N) s.
Proof.
  unfold replace. induction s as [|x s IH]; simpl; [reflexivity|].
  rewrite andb_true_r. destruct (c =? x)%N; simpl; now rewrite IH.
Qed.

Lemma replace_char_gone (c : N) (s : list N) : c ∉ replace [c] [] s.
Proof.
  rewrite replace_char, list_elem_of_In, filter_In.
  intros [_ Hc]. now rewrite N.eqb_refl in Hc.
Qed.

Lemma replace_char_absent (c : N) (s : list N) :
  c ∉ s -> replace [c] [] s = s.
Proof.
  rewrite replace_char. induction s as [|x s IH]; simpl; [reflexivity|].
  rewrite not_elem_of_cons. intros [Hx Hs].
  destruct (N.eqb_spec c x); [contradiction|]. simpl. now rewrite IH.
Qed.

(** The three cases of deleting a doubled character. *)
Lemma replace_pair_match (b : N) (s : list N) :
  replace [b; b] [] (b :: b :: s) = replace [b; b] [] s.
Proof. unfold replace. simpl. now rewrite N.eqb_refl. Qed.

Lemma replace_pair_keep (b x : N) (s : list N) :
  startswith [b; b] (x :: s) = false ->
  replace [b; b] [] (x :: s) = x :: replace [b; b] [] s.
Proof. unfold replace. cbn [replace_from]. now intros ->. Qed.

Lemma startswith_pair (b x : N) (s : list N) :
  startswith [b; b] (x :: s) = true <-> x = b /\ head s = Some b.
Proof.
  destruct s as [|y s]; simpl.
  - rewrite andb_false_r. split; [discriminate | intros [_ ?]; discriminate].
  - rewrite andb_true_r, andb_true_iff, !N.eqb_eq. split.
    + now intros [-> ->].
    + intros [-> [= ->]]. auto.
Qed.

(** Induction along the way [replace] walks through the text. *)
Lemma pair_walk_ind (b : N) (P : list N -> Prop) :
  P [] ->
  (forall s, P s -> P (b :: b :: s)) ->
  (forall x s, startswith [b; b] (x :: s) = false -> P s -> P (x :: s)) ->
  forall s, P s.
Proof.
  intros Hnil Hmatch Hkeep s.
  assert (Hlen : forall n s, (length s <= n)%nat -> P s).
  { induction n as [|n IH]; intros [|x t] Hn; simpl in Hn; try exact Hnil.
    - lia.
    - destruct (startswith [b; b] (x :: t)) eqn:Hs.
      + apply startswith_pair in Hs as [-> Ht].
        destruct t as [|y t]; [discriminate|]. injection Ht as ->.
        apply Hmatch, IH. simpl in Hn. lia.
      + apply Hkeep; [exact Hs|]. apply IH. lia. }
  apply (Hlen (length s)). lia.
Qed.

Lemma replace_pair_head (b : N) (s : list N) :
  head (replace [b; b] [] s) = Some b -> head s = Some b.
Proof.
  destruct s as [|x s]; [discriminate|].
  destruct (startswith [b; b] (x :: s)) eqn:Hs.
  - apply startswith_pair in Hs as [-> _]. reflexivity.
  - now rewrite replace_pair_keep.
Qed.

(** After the doubled character is deleted, none is left. *)
Lemma replace_pair_gone (b : N) (s : list N) :
  contains [b; b] (replace [b; b] [] s) = false.
Proof.
  induction s as [| s IH | x s Hs IH] using (pair_walk_ind b).
  - reflexivity.
  - now rewrite replace_pair_match.
  - rewrite replace_pair_keep by exact Hs. cbn [contains].
    rewrite IH, orb_false_r.
    apply not_true_is_false. intros Hp.
    apply startswith_pair in Hp as [-> Hh].
    apply replace_pair_head in Hh.
    apply not_true_iff_false in Hs. apply Hs, startswith_pair. auto.
Qed.

(** Deletions keep a first and a last character that they do not match. *)
Lemma replace_pair_keeps_head (b c : N) (s : list N) :
  head s = Some c -> c <> b -> head (replace [b; b] [] s) = Some c.
Proof.
  destruct s as [|x s]; [discriminate|]. intros [= ->] Hc.
  rewrite replace_pair_keep; [reflexivity|].
  apply not_true_is_false. intros Hs. apply startswith_pair in Hs as [? _].
  contradiction.
Qed.

Lemma replace_pair_keeps_last (b c : N) (s : list N) :
  last s = Some c -> c <> b -> last (replace [b; b] [] s) = Some c.
Proof.
  intros Hl Hc. revert Hl.
  induction s as [| s IH | x s Hs IH] using (pair_walk_ind b).
  - discriminate.
  - rewrite replace_pair_match. destruct s as [|y s].
    + intros [= <-]. contradiction.
    + rewrite !last_cons_cons. exact IH.
  - rewrite replace_pair_keep by exact Hs. destruct s as [|y s].
    + auto.
    + rewrite last_cons_cons. intros Hl. specialize (IH Hl).
      rewrite last_cons, IH. reflexivity.
Qed.

Lemma replace_char_keeps_head (q c : N) (s : list N) :
  head s = Some c -> c <> q -> head (replace [q] [] s) = Some c.
Proof.
  rewrite replace_char. destruct s as [|x s]; [discriminate|].
  intros [= ->] Hc. simpl. destruct (N.eqb_spec q c); [congruence|].
  reflexivity.
Qed.

Lemma replace_char_keeps_last (q c : N) (s : list N) :
  last s = Some c -> c <> q -> last (replace [q] [] s) = Some c.
Proof.
  rewrite replace_char. intros Hl Hc. revert Hl.
  induction s as [|x s IH]; [discriminate|].
  destruct s as [|y s].
  - intros [= ->]. simpl. destruct (N.eqb_spec q c); [congruence|].
    reflexivity.
  - rewrite last_cons_cons. intros Hl. specialize (IH Hl).
    cbn [List.filter]. cbn [List.filter] in IH.
    destruct (negb (q =? x)%N); [|exact IH].
    rewrite last_cons, IH. reflexivity.
Qed.

(** [strip] leaves no whitespace at either end. *)
Lemma lstrip_head (s : list N) (c : N) :
  head (lstrip s) = Some c -> isspace c = false.
Proof.
  induction s as [|x s IH]; simpl; [discriminate|].
  destruct (isspace x) eqn:Hx; [exact IH|].
  now intros [= <-].
Qed.

Lemma lstrip_suffix (s : list N) : exists p, s = p ++ lstrip s.
Proof.
  induction s as [|x s [p Hp]]; simpl.
  - now exists [].
  - destruct (isspace x).
    + exists (x :: p). simpl. now rewrite <- Hp.
    + now exists [].
Qed.

Lemma strip_trimmed (s : list N) : trimmed (strip s).
Proof.
  unfold trimmed, strip, rstrip. split; intros c Hc.
  - eapply lstrip_head, Hc.
  - set (u := lstrip (reverse s)) in *.
    destruct (lstrip_suffix (reverse u)) as [p Hp].
    assert (Hl : last (reverse u) = Some c).
    { rewrite Hp, last_app, Hc. reflexivity. }
    rewrite last_reverse in Hl. eapply lstrip_head, Hl.
Qed.

Lemma strip_deletes (s : list N) (x : N) : x ∈ strip s -> x ∈ s.
Proof.
  assert (Hl : forall t, x ∈ lstrip t -> x ∈ t).
  { intros t Hx. destruct (lstrip_suffix t) as [p Hp].
    rewrite Hp, elem_of_app. now right. }
  unfold strip, rstrip. intros Hx.
  apply Hl in Hx. rewrite elem_of_reverse in Hx.
  apply Hl in Hx. rewrite elem_of_reverse in Hx. exact Hx.
Qed.

Lemma deletions_keep_trimmed (t : list N) :
  trimmed t ->
  (forall c, head t = Some c \/ last t = Some c ->
             c <> BACKTICK /\ c <> DQUOTE) ->
  trimmed (replace [DQUOTE] []
             (replace [BACKTICK; BACKTICK] [] (replace [NEWLINE] [] t))).
Proof.
  intros [Hhead Hlast] H.
  assert (Hnl : forall c, isspace c = false -> c <> NEWLINE).
  { intros c Hc ->. discriminate Hc. }
  split; intros c Hc.
  - assert (Hcases : head t = None \/ exists h, head t = Some h)
      by (destruct (head t); eauto).
    destruct Hcases as [Hh | [h Hh]].
    + apply head_None in Hh. subst t. discriminate Hc.
    + destruct (H h (or_introl Hh)) as [Hb Hd].
      rewrite (replace_char_keeps_head DQUOTE h) in Hc.
      * injection Hc as <-. now apply Hhead.
      * apply replace_pair_keeps_head; [|exact Hb].
        apply replace_char_keeps_head; [exact Hh|]. now apply Hnl, Hhead.
      * exact Hd.
  - assert (Hcases : last t = None \/ exists l, last t = Some l)
      by (destruct (last t); eauto).
    destruct Hcases as [Hl | [l Hl]].
    + apply last_None in Hl. subst t. discriminate Hc.
    + destruct (H l (or_intror Hl)) as [Hb Hd].
      rewrite (replace_char_keeps_last DQUOTE l) in Hc.
      * injection Hc as <-. now apply Hlast.
      * apply replace_pair_keeps_last; [|exact Hb].
        apply replace_char_keeps_last; [exact Hl|]. now apply Hnl, Hlast.
      * exact Hd.
Qed.

Example clean_text_example :
  clean_text [SPACE; 97; NEWLINE; BACKTICK; BACKTICK; 98; DQUOTE; SPACE]%N
  = [97; 98]%N.
Proof. reflexivity. Qed.

(** The quotation marks are deleted last: whatever they separated becomes
    adjacent, and whatever they enclosed becomes the end of the text. *)
Example clean_text_joins_backticks :
  clean_text [BACKTICK; DQUOTE; BACKTICK] = [BACKTICK; BACKTICK].
Proof. reflexivity. Qed.

Example clean_text_uncovers_space :
  clean_text [DQUOTE; SPACE; 97; DQUOTE]%N = [SPACE; 97]%N.
Proof. reflexivity. Qed.

(** C1, as stated, does not hold: a text with a double quote between two
    backticks is cleaned to a doubled backtick. *)
Lemma clean_text_leaves_doubled_backtick :
  ~ (forall s : list N,
       (NEWLINE ∈ s) \/ contains [BACKTICK; BACKTICK] s = true \/ (DQUOTE ∈ s) ->
       (NEWLINE ∉ clean_text s) /\
       contains [BACKTICK; BACKTICK] (clean_text s) = false /\
       (DQUOTE ∉ clean_text s) /\
       trimmed (clean_text s)).
Proof.
  intros Hclaim.
  destruct (Hclaim [BACKTICK; DQUOTE; BACKTICK]) as (_ & Hpair & _).
  - right. right. apply list_elem_of_further, list_elem_of_here.
  - rewrite clean_text_joins_backticks in Hpair. discriminate Hpair.
Qed.

(** C1 (amended): [clean_text] strips the surrounding whitespace of its
    argument and then deletes, in this order, every newline, every doubled
    backtick and every double quote. The result holds no newline and no
    double quote; it holds no doubled backtick when the argument holds no
    double quote; it has no surrounding whitespace when the stripped
    argument neither starts nor ends with a backtick or a double quote. *)
Theorem clean_text_cleans (s : list N) :
  (NEWLINE ∉ clean_text s) /\
  (DQUOTE ∉ clean_text s) /\
  (DQUOTE ∉ s -> contains [BACKTICK; BACKTICK] (clean_text s) = false) /\
  ((forall c, head (strip s) = Some c \/ last (strip s) = Some c ->
              c <> BACKTICK /\ c <> DQUOTE) ->
   trimmed (clean_text s)).
Proof.
  unfold clean_text. repeat split.
  - intros Hn. do 2 apply replace_deletes in Hn.
    exact (replace_char_gone _ _ Hn).
  - apply replace_char_gone.
  - intros Hq. rewrite (replace_char_absent DQUOTE).
    + apply replace_pair_gone.
    + intros Hin. do 2 apply replace_deletes in Hin.
      apply strip_deletes in Hin. contradiction.
  - apply deletions_keep_trimmed; [apply strip_trimmed | exact H].
  - apply deletions_keep_trimmed; [apply strip_trimmed | exact H].
Qed.

Lemma clean_text_cleans_witness :
  let s := [SPACE; 97; NEWLINE; BACKTICK; BACKTICK; 98; SPACE]%N in
  (DQUOTE ∉ s) /\
  contains [BACKTICK; BACKTICK] (clean_text s) = false /\
  trimmed (clean_text s).
Proof.
  intros s.
  assert (Hq : DQUOTE ∉ s).
  { unfold s. rewrite !not_elem_of_cons.
    repeat split; try discriminate. apply not_elem_of_nil. }
  destruct (clean_text_cleans s) as (_ & _ & Hpair & Htrim).
  split; [exact Hq|]. split; [exact (Hpair Hq)|].
  apply Htrim. intros c [Hc | Hc]; vm_compute in Hc;
    injection Hc as <-; split; discriminate.
Defined.

End CleanText.

(** ** The dataset adapter *)

Section Dataset.
Import Text Clean Py Data.

Lemma numel_squeeze (t : tensor) : numel (squeeze t) = numel t.
Proof.
  unfold numel, squeeze. simpl. induction (shape t) as [|d ds IH].
  - reflexivity.
  - rewrite filter_cons. destruct (decide (d <> 1%nat)) as [Hd | Hd]; simpl.
    + now rewrite IH.
    + assert (d = 1%nat) as -> by lia. rewrite IH. lia.
Qed.

(** The toy tokenizer honours the request. *)
Lemma char_tokenizer_pads_and_truncates : pads_and_truncates char_tokenizer.
Proof.
  intros texts n. eexists _, _, _. split; [reflexivity|].
  split; [apply lookup_insert_eq|].
  split; [rewrite lookup_insert_ne by discriminate; apply lookup_insert_eq|].
  split; reflexivity.
Qed.

(** What a successful construction has stored. *)
Lemma init_stores dataset tok input_length output_length print_text
    num_samples self :
  __init__ dataset tok input_length output_length print_text num_samples
    = inr self ->
  num_samples_set num_samples = false /\
  self !! "text" = Some (AColumn (Frame.text dataset)) /\
  self !! "headline" = Some (AColumn (Frame.headline dataset)) /\
  self !! "title" = Some (AColumn (Frame.title dataset)) /\
  self !! "input_length" = Some (ALength input_length) /\
  self !! "tokenizer" = Some (ATokenizer tok) /\
  self !! "output_length" = Some (ALength output_length) /\
  self !! "print_text" = Some (AFlag print_text) /\
  self !! "dataset" = None.
Proof.
  unfold __init__. destruct (num_samples_set num_samples).
  - unfold self_getattr. rewrite !lookup_insert_ne by discriminate.
    rewrite lookup_empty. discriminate.
  - cbn [bind_result]. intros [= <-]. split; [reflexivity|].
    repeat split; simplify_map_eq; reflexivity.
Qed.

Lemma numel_row (t : tensor) (n : nat) :
  shape t = [1%nat; n] -> numel (squeeze t) = n.
Proof. intros Hs. rewrite numel_squeeze. unfold numel. rewrite Hs. simpl. lia. Qed.

(** The shape after [squeeze]: a vector of [n] elements, except that a
    single element is left as a scalar. *)
Lemma squeeze_row_shape (t : tensor) (n : nat) :
  shape t = [1%nat; n] ->
  shape (squeeze t) = if Nat.eqb n 1 then [] else [n].
Proof.
  intros Hs. unfold squeeze. cbn [shape]. rewrite Hs.
  destruct (Nat.eqb_spec n 1) as [-> | Hn]; [reflexivity|].
  rewrite filter_cons_False by (intros Hf; now apply Hf).
  now rewrite filter_cons_True, filter_nil by exact Hn.
Qed.

(** Without a sample count (or with the count 0) the construction
    succeeds. *)
Lemma init_succeeds dataset tok input_length output_length print_text
    num_samples :
  num_samples_set num_samples = false ->
  is_ok (__init__ dataset tok input_length output_length print_text
           num_samples) = true.
Proof. unfold __init__. intros ->. reflexivity. Qed.

(** C2: with a tokenizer that pads to [max_length] and truncates beyond it
    as requested, the item of every index that both columns have holds
    [input_ids] and [attention_mask] of exactly [input_length] elements
    and [labels] and [target_mask] of exactly [output_length] elements,
    whatever the lengths of the texts. *)
Theorem getitem_fixed_lengths {call : Type} dataset tok input_length
    output_length print_text num_samples self index text headline
    (w : world call) :
  pads_and_truncates tok ->
  __init__ dataset tok input_length output_length print_text num_samples
    = inr self ->
  Frame.text dataset !! index = Some text ->
  Frame.headline dataset !! index = Some headline ->
  exists item w' input_ids attention_mask labels target_mask,
    __getitem__ self index w = (inr item, w') /\
    item !! "input_ids" = Some input_ids /\
    numel input_ids = input_length /\
    item !! "attention_mask" = Some attention_mask /\
    numel attention_mask = input_length /\
    item !! "labels" = Some labels /\
    numel labels = output_length /\
    item !! "target_mask" = Some target_mask /\
    numel target_mask = output_length.
Proof.
  intros Htok Hinit Ht Hh.
  apply init_stores in Hinit
    as (_ & Htext & Hhead & _ & Hin & Htk & Hout & Hprint & _).
  destruct (Htok [clean_text text] input_length)
    as (src & ids & mask & Hsrc & Hids & Hmask & Sids & Smask).
  destruct (Htok [clean_text headline] output_length)
    as (tgt & tids & tmask & Htgt & Htids & Htmask & Stids & Stmask).
  unfold __getitem__, convert_to_features, self_getattr, at_index, getitem.
  unfold bind, lift, ret.
  rewrite Htext, Hhead, Hprint, Htk, Hin, Hout. cbn [bind_result as_column].
  rewrite Ht, Hh. cbn [as_flag as_tokenizer as_length].
  destruct print_text; unfold print; cbn -[squeeze clean_text of_string];
    rewrite Hsrc; cbn -[squeeze clean_text of_string];
    rewrite Htgt; cbn -[squeeze clean_text of_string];
    rewrite Hids, Hmask, Htids, Htmask;
    eexists _, _, _, _, _, _; (split; [reflexivity|]);
    repeat split; simplify_map_eq; auto using numel_row.
Qed.

Lemma getitem_fixed_lengths_witness :
  let dataset :=
    Frame.Make [of_string "  a long story, longer than four tokens "]
               [of_string "hi"] [of_string "t"] in
  exists self item w' input_ids attention_mask labels target_mask,
    __init__ dataset char_tokenizer 4 3 true None = inr self /\
    __getitem__ (call := Empty_set) self 0 (World [] []) = (inr item, w') /\
    item !! "input_ids" = Some input_ids /\
    numel input_ids = 4%nat /\
    item !! "attention_mask" = Some attention_mask /\
    numel attention_mask = 4%nat /\
    item !! "labels" = Some labels /\
    numel labels = 3%nat /\
    item !! "target_mask" = Some target_mask /\
    numel target_mask = 3%nat.
Proof.
  intros dataset.
  destruct (getitem_fixed_lengths (call := Empty_set) dataset char_tokenizer
              4 3 true None
              (<["print_text" := AFlag true]>
               (<["output_length" := ALength 3]>
                (<["tokenizer" := ATokenizer char_tokenizer]>
                 (<["input_length" := ALength 4]>
                  (<["title" := AColumn (Frame.title dataset)]>
                   (<["headline" := AColumn (Frame.headline dataset)]>
                    (<["text" := AColumn (Frame.text dataset)]> ∅)))))))
              0%nat _ _ (World [] [])
              char_tokenizer_pads_and_truncates eq_refl eq_refl eq_refl)
    as (item & w' & a & b & c & d & Hrun).
  eexists _, item, w', a, b, c, d. split; [reflexivity|]. exact Hrun.
Defined.

Example getitem_example :
  let dataset :=
    Frame.Make [of_string "  a long story "] [of_string "hi"]
               [of_string "t"] in
  forall self,
    __init__ dataset char_tokenizer 4 3 false None = inr self ->
    fst (__getitem__ (call := Empty_set) self 0 (World [] [])) =
    inr (<["input_ids" := Tensor [4%nat] [97; 32; 108; 111]]>
         (<["attention_mask" := Tensor [4%nat] [1; 1; 1; 1]]>
          (<["labels" := Tensor [3%nat] [104; 105; 0]]>
           (<["target_mask" := Tensor [3%nat] [1; 1; 0]]> ∅)))).
Proof. intros dataset self [= <-]. reflexivity. Qed.

(** C9: with a sample count that is neither [None] nor 0 the constructor
    reads [self.dataset] before anything has stored it and raises
    [AttributeError]; no object is built and no example is selected,
    whether or not the count exceeds the number of examples. *)
Theorem init_with_num_samples_fails dataset tok input_length output_length
    print_text (n : Z) :
  n <> 0 ->
  __init__ dataset tok input_length output_length print_text (Some n)
    = inl (AttributeError "dataset").
Proof.
  intros Hn. unfold __init__, num_samples_set.
  destruct (Z.eqb_spec n 0) as [|_]; [contradiction|]. reflexivity.
Qed.

Lemma init_with_num_samples_fails_witness :
  __init__ (Frame.Make [of_string "a"; of_string "b"]
                       [of_string "c"; of_string "d"]
                       [of_string "e"; of_string "f"])
           char_tokenizer 4 3 false (Some 5)
    = inl (AttributeError "dataset").
Proof. apply init_with_num_samples_fails. lia. Defined.

End Dataset.

(** ** Construction of the training module *)

Ltac step_result :=
  match goal with
  | H : context [Py.bind_result ?r _] |- _ =>
      let E := fresh "E" in
      destruct r eqn:E; cbn [Py.bind_result] in H; [discriminate H|]
  end.

Section Construction.
Import Py Lightning.
Context `{Hub}.

Lemma le_int (a b : Z) : le (VInt a) (VInt b) = inr (a <=? b).
Proof.
  unfold le, number, extended_le. rewrite Z.min_id, Z.sub_diag.
  now rewrite !Z.mul_1_r.
Qed.

Lemma check_target_lens_int (tr va te : Z) :
  check_target_lens
    (<["train" := VInt tr]> (<["val" := VInt va]> (<["test" := VInt te]> ∅)))
  = if (tr <=? va) && (tr <=? te) then inr tt
    else inl (AssertionError "target_lens: "
                [("train", VInt tr); ("val", VInt va); ("test", VInt te)]).
Proof.
  unfold check_target_lens, Data.getitem, getattr_default.
  simplify_map_eq. rewrite Z.min_id, Z.sub_diag, !Z.mul_1_r.
  destruct (tr <=? va); [|reflexivity]. cbn [negb andb].
  destruct (tr <=? te); reflexivity.
Qed.

(** The components keep the hyperparameters they were resolved from. *)
Lemma resolve_components_hparams hp config tokenizer num_labels model kw
    self :
  resolve_components hp config tokenizer num_labels model kw = inr self ->
  hparams self = hp /\ hp !! "output_dir" = Some (VStr (output_dir self)).
Proof.
  unfold resolve_components. intros Hr.
  unfold getattr at 1 in Hr.
  destruct (hp !! "output_dir") as [d|] eqn:Ed; [|discriminate Hr].
  cbn [bind_result] in Hr.
  destruct d; try discriminate Hr. cbn [Path bind_result] in Hr.
  repeat step_result. injection Hr as <-. auto.
Qed.

Lemma init_unfold hp config tokenizer num_labels model kw self tr va te :
  resolve_components hp config tokenizer num_labels model kw = inr self ->
  hp !! "max_target_length" = Some (VInt tr) ->
  hp !! "val_max_target_length" = Some (VInt va) ->
  hp !! "test_max_target_length" = Some (VInt te) ->
  __init__ hp config tokenizer num_labels model kw
  = if (tr <=? va) && (tr <=? te)
    then inr (set_target_lens self
                (<["train" := VInt tr]>
                 (<["val" := VInt va]> (<["test" := VInt te]> ∅))))
    else inl (AssertionError "target_lens: "
                [("train", VInt tr); ("val", VInt va); ("test", VInt te)]).
Proof.
  intros Hr Htr Hva Hte. unfold __init__. rewrite Hr. cbn [bind_result].
  apply resolve_components_hparams in Hr as [-> _].
  unfold getattr. rewrite Htr, Hva, Hte. cbn [bind_result].
  cbn [set_target_lens target_lens]. rewrite check_target_lens_int.
  destruct ((tr <=? va) && (tr <=? te)); reflexivity.
Qed.

(** C3: the construction checks the target lengths. When the maximum
    target length for training exceeds the one for validation or the one
    for test, the construction fails; and once the components are
    resolved, it fails, with the assertion on [target_lens], if and only
    if that is the case, and succeeds otherwise. *)
Theorem init_checks_target_lens hp config tokenizer num_labels model kw
    (tr va te : Z) :
  hp !! "max_target_length" = Some (VInt tr) ->
  hp !! "val_max_target_length" = Some (VInt va) ->
  hp !! "test_max_target_length" = Some (VInt te) ->
  let r := __init__ hp config tokenizer num_labels model kw in
  (tr > va \/ tr > te -> is_ok r = false) /\
  (forall self,
     resolve_components hp config tokenizer num_labels model kw = inr self ->
     (is_assertion_error r = true <-> tr > va \/ tr > te) /\
     (is_ok r = true <-> tr <= va /\ tr <= te) /\
     (tr > va \/ tr > te ->
      r = inl (AssertionError "target_lens: "
                 [("train", VInt tr); ("val", VInt va); ("test", VInt te)]))).
Proof.
  intros Htr Hva Hte r. subst r.
  destruct (resolve_components hp config tokenizer num_labels model kw)
    as [e|self] eqn:Hr.
  - split; [|intros self' Hs; discriminate Hs].
    intros _. unfold __init__. rewrite Hr. reflexivity.
  - rewrite (init_unfold _ _ _ _ _ _ _ _ _ _ Hr Htr Hva Hte).
    split; [|intros self' _];
      destruct (Z.leb_spec tr va); destruct (Z.leb_spec tr te); cbn;
      repeat split; intros; try reflexivity; try discriminate; try lia.
Qed.

(** One round of the loop over the override names. *)
Lemma apply_extra_model_param_cases hp (cfg : gmap string value) p :
  apply_extra_model_param hp cfg p =
  match hp !! p with
  | Some v =>
      if truthy v then
        match cfg !! p with
        | Some _ => inr (<[p := v]> cfg)
        | None => inl (AssertionError
                         ("model config doesn't have a `" ++ p
                          ++ "` attribute") [])
        end
      else inr cfg
  | None => inr cfg
  end.
Proof.
  unfold apply_extra_model_param, override_set, getattr_default, hasattr,
    getattr, setattr.
  destruct (hp !! p) as [v|]; [|reflexivity].
  destruct (truthy v); [|reflexivity].
  destruct (cfg !! p) as [c|] eqn:Ec.
  - rewrite bool_decide_eq_true_2 by eauto. reflexivity.
  - rewrite bool_decide_eq_false_2; [reflexivity|].
    intros [? ?]. discriminate.
Qed.

(** When the loop completes: the names with a truthy override were
    attributes of the configuration and now hold the override; every other
    attribute is unchanged. *)
Lemma apply_extra_model_params_ok hp ps :
  forall (cfg cfg' : gmap string value),
    apply_extra_model_params hp cfg ps = inr cfg' ->
    forall p,
      (p ∈ ps -> override_set hp p = true ->
       is_Some (cfg !! p) /\ cfg' !! p = hp !! p) /\
      (p ∉ ps \/ override_set hp p = false -> cfg' !! p = cfg !! p).
Proof.
  unfold override_set, getattr_default.
  induction ps as [|q ps IH]; intros cfg cfg' Hrun p; simpl in Hrun.
  - injection Hrun as <-. split.
    + intros Hin. inversion Hin.
    + reflexivity.
  - rewrite apply_extra_model_param_cases in Hrun.
    assert (Hstep : exists cfg1,
      apply_extra_model_params hp cfg1 ps = inr cfg' /\
      (forall k, k <> q -> cfg1 !! k = cfg !! k) /\
      match hp !! q with
      | Some v => if truthy v
                  then is_Some (cfg !! q) /\ cfg1 !! q = Some v
                  else cfg1 = cfg
      | None => cfg1 = cfg
      end).
    { destruct (hp !! q) as [v|].
      - destruct (truthy v).
        + destruct (cfg !! q) as [c|] eqn:Ec; [|discriminate Hrun].
          exists (<[q := v]> cfg). split; [exact Hrun|]. split.
          * intros k Hk. now rewrite lookup_insert_ne.
          * split; [eauto | apply lookup_insert_eq].
        + exists cfg. auto.
      - exists cfg. auto. }
    destruct Hstep as (cfg1 & Hrest & Hother & Hq).
    destruct (IH _ _ Hrest p) as [IHset IHkeep].
    destruct (decide (p = q)) as [-> | Hne].
    + split.
      * intros _ Hset. destruct (hp !! q) as [v|]; [|discriminate Hset].
        rewrite Hset in Hq. destruct Hq as [Hsome Hv]. split; [exact Hsome|].
        destruct (decide (q ∈ ps)) as [Hin | Hout].
        -- now apply IHset.
        -- rewrite IHkeep by auto. exact Hv.
      * intros [Hout | Hunset].
        -- exfalso. apply Hout. apply list_elem_of_here.
        -- assert (cfg1 = cfg) as ->.
           { destruct (hp !! q) as [v|]; [|exact Hq].
             now rewrite Hunset in Hq. }
           destruct (decide (q ∈ ps)); apply IHkeep; auto.
    + rewrite <- (Hother p Hne). split.
      * intros Hin. apply elem_of_cons in Hin as [? | Hin]; [contradiction|].
        now apply IHset.
      * intros [Hout | Hunset]; apply IHkeep; auto.
        left. intros Hin. apply Hout. now apply list_elem_of_further.
Qed.

(** When the loop fails: it is the assertion, for a name with a truthy
    override that the configuration does not have. *)
Lemma apply_extra_model_params_fails hp ps :
  forall (cfg : gmap string value) e,
    apply_extra_model_params hp cfg ps = inl e ->
    exists p, p ∈ ps /\ override_set hp p = true /\ cfg !! p = None /\
      e = AssertionError
            ("model config doesn't have a `" ++ p ++ "` attribute") [].
Proof.
  unfold override_set, getattr_default.
  induction ps as [|q ps IH]; intros cfg e Hrun; simpl in Hrun.
  - discriminate Hrun.
  - rewrite apply_extra_model_param_cases in Hrun.
    assert (Hlift : forall cfg1,
      (forall k, cfg1 !! k = None -> cfg !! k = None) ->
      apply_extra_model_params hp cfg1 ps = inl e ->
      exists p, p ∈ q :: ps /\
        truthy match hp !! p with Some v => v | None => VNone end = true /\
        cfg !! p = None /\
        e = AssertionError
              ("model config doesn't have a `" ++ p ++ "` attribute") []).
    { intros cfg1 Hsub Hrest.
      destruct (IH _ _ Hrest) as (p & Hin & Hset & Hnone & He).
      exists p. split; [now apply list_elem_of_further|]. auto. }
    destruct (hp !! q) as [v|] eqn:Ev; [|now apply (Hlift cfg)].
    destruct (truthy v) eqn:Et; [|now apply (Hlift cfg)].
    destruct (cfg !! q) as [c|] eqn:Ec.
    + apply (Hlift (<[q := v]> cfg)); [|exact Hrun].
      intros k Hk. destruct (decide (q = k)) as [-> | Hne].
      * rewrite lookup_insert_eq in Hk. discriminate Hk.
      * now rewrite lookup_insert_ne in Hk.
    + injection Hrun as <-. exists q. rewrite Ev.
      split; [apply list_elem_of_here|]. auto.
Qed.

End Construction.

Section ConstructionExamples.
Import Py Lightning Cli Fixture.

Lemma init_checks_target_lens_witness :
  is_assertion_error
    (__init__ (hparams_with [] 50 40 100) None None None None ∅) = true /\
  is_ok (__init__ (hparams_with [] 50 60 100) None None None None ∅) = true.
Proof.
  split.
  - destruct (init_checks_target_lens (hparams_with [] 50 40 100)
                None None None None ∅ 50 40 100 eq_refl eq_refl eq_refl)
      as [_ Hres].
    destruct (Hres (resolved (hparams_with [] 50 40 100))) as (Hfail & _).
    + vm_compute. reflexivity.
    + apply Hfail. lia.
  - destruct (init_checks_target_lens (hparams_with [] 50 60 100)
                None None None None ∅ 50 60 100 eq_refl eq_refl eq_refl)
      as [_ Hres].
    destruct (Hres (resolved (hparams_with [] 50 60 100))) as (_ & Hok & _).
    + vm_compute. reflexivity.
    + apply Hok. lia.
Defined.

(** A nonzero override of an attribute that the configuration lacks is
    rejected. *)
Example nonzero_dropout_override_is_rejected :
  __init__ (hparams_with [("dropout", float 7205759403792794 (-56))] 50 60 100)
           None None None None ∅
  = inl (AssertionError "model config doesn't have a `dropout` attribute" []).
Proof. vm_compute. reflexivity. Qed.

(** C5, at an override that is present with the value 0.0 on a
    configuration without the attribute: the guard of the loop takes the
    zero for an absent override, no assertion is made and the construction
    succeeds with the configuration as the hub delivered it. *)
Theorem zero_dropout_override_is_dropped :
  let hp := hparams_with [("dropout", VFloat (S754_zero false))] 50 60 100 in
  hp !! "dropout" = Some (VFloat (S754_zero false)) /\
  hasattr t5_config "dropout" = false /\
  exists self,
    __init__ hp None None None None ∅ = inr self /\
    config self = t5_config.
Proof.
  intros hp. split; [reflexivity|]. split; [reflexivity|].
  exists (set_target_lens (resolved hp)
            (<["train" := VInt 50]>
             (<["val" := VInt 60]> (<["test" := VInt 100]> ∅)))).
  split; [vm_compute; reflexivity | reflexivity].
Qed.

(** Nor is the zero written into a configuration that has the
    attribute. *)
Example zero_dropout_override_is_not_written :
  let hp := hparams_with [("dropout", VFloat (S754_zero false))] 50 60 100 in
  let cfg : gmap string value :=
    <["dropout" := float 7205759403792794 (-56)]> ∅ in
  apply_extra_model_params hp cfg extra_model_params = inr cfg.
Proof. vm_compute. reflexivity. Qed.

End ConstructionExamples.

(** ** Optimizer, schedule and evaluation steps *)

Section Optimizers.
Import Py Lightning.
Context {call Batch Output Loader : Type}.
Context (sub : Subclass (call := call) (Batch := Batch) (Output := Output)
                        (Loader := Loader)).

(** [any_no_decay] is the substring test against the exclusion list. *)
Lemma any_no_decay_spec (n : string) :
  any_no_decay n = true <->
  exists nd before after,
    (nd = "bias" \/ nd = "LayerNorm.weight") /\
    Text.of_string n = before ++ Text.of_string nd ++ after.
Proof.
  unfold any_no_decay, no_decay, str_in. cbn [existsb].
  rewrite orb_false_r, orb_true_iff, !contains_spec. split.
  - intros [(b & a & Hn) | (b & a & Hn)]; eauto 7.
  - intros (nd & b & a & [-> | ->] & Hn); eauto.
Qed.

(** The two filters split the named parameters. *)
Lemma filter_split {A} (f : A -> bool) (l : list A) :
  Permutation (List.filter (fun x => negb (f x)) l ++ List.filter f l) l.
Proof.
  induction l as [|x l IH]; simpl; [constructor|].
  destruct (f x); simpl.
  - rewrite <- Permutation_middle. now constructor.
  - now constructor.
Qed.

Lemma groups_unfold (self : BaseTransformer) gs :
  optimizer_grouped_parameters self = inr gs ->
  exists wd,
    hparams self !! "weight_decay" = Some wd /\
    gs = [ {| params :=
                map snd (List.filter (fun np => negb (any_no_decay (fst np)))
                                     (named_parameters (model self)));
              weight_decay := wd |};
           {| params :=
                map snd (List.filter (fun np => any_no_decay (fst np))
                                     (named_parameters (model self)));
              weight_decay := VFloat (S754_zero false) |} ].
Proof.
  unfold optimizer_grouped_parameters, getattr.
  destruct (hparams self !! "weight_decay") as [wd|]; [|discriminate].
  cbn [bind_result]. intros [= <-]. eauto.
Qed.

Lemma configure_optimizers_groups self self' o os ss :
  configure_optimizers sub self = inr (self', (o :: os, ss)) ->
  optimizer_grouped_parameters self = inr (optimizer_groups o).
Proof.
  unfold configure_optimizers. intros Hc.
  destruct (optimizer_grouped_parameters self) as [e|gs];
    [discriminate Hc|]. cbn [bind_result] in Hc.
  repeat step_result.
  injection Hc as <- <- <- <-.
  destruct (truthy v); repeat step_result;
    match goal with H : inr _ = inr _ |- _ => injection H as <- end;
    reflexivity.
Qed.

(** C4: the optimizer gets exactly two groups. The first holds the
    parameters whose name contains no excluded substring, with the
    configured weight decay; the second holds the parameters whose name
    contains ["bias"] or ["LayerNorm.weight"], with weight decay 0.0. The
    two groups together are the parameters of the model, each occurrence
    once, and they share no parameter when the model lists none twice.
    ["encoder.bias"] is excluded from decay and ["encoder.weight"] is
    not. *)
Theorem configure_optimizers_partitions self self' o os ss :
  configure_optimizers sub self = inr (self', (o :: os, ss)) ->
  exists decayed not_decayed wd,
    hparams self !! "weight_decay" = Some wd /\
    optimizer_groups o =
      [ {| params := decayed; weight_decay := wd |};
        {| params := not_decayed;
           weight_decay := VFloat (S754_zero false) |} ] /\
    (forall n p, (n, p) ∈ named_parameters (model self) ->
       if any_no_decay n then p ∈ not_decayed else p ∈ decayed) /\
    Permutation (decayed ++ not_decayed)
                (map snd (named_parameters (model self))) /\
    (NoDup (map snd (named_parameters (model self))) ->
     forall p, ~ (p ∈ decayed /\ p ∈ not_decayed)) /\
    (forall n, any_no_decay n = true <->
       exists nd before after,
         (nd = "bias" \/ nd = "LayerNorm.weight") /\
         Text.of_string n = before ++ Text.of_string nd ++ after) /\
    any_no_decay "encoder.bias" = true /\
    any_no_decay "encoder.weight" = false.
Proof.
  intros Hc. apply configure_optimizers_groups in Hc.
  apply groups_unfold in Hc as (wd & Hwd & Hgs).
  eexists _, _, wd. split; [exact Hwd|]. split; [exact Hgs|].
  set (nps := named_parameters (model self)).
  assert (Hperm :
    Permutation
      (map snd (List.filter (fun np => negb (any_no_decay (fst np))) nps) ++
       map snd (List.filter (fun np => any_no_decay (fst np)) nps))
      (map snd nps)).
  { rewrite <- map_app. apply Permutation_map.
    apply (filter_split (fun np => any_no_decay (fst np))). }
  split; [|split; [exact Hperm|split; [|split; [|split; reflexivity]]]].
  - intros n p Hin. apply list_elem_of_In in Hin.
    destruct (any_no_decay n) eqn:Hn; apply list_elem_of_In;
      apply (in_map snd _ (n, p)), filter_In; simpl; rewrite Hn; auto.
  - intros Hnodup q [Hd Hn].
    rewrite <- Hperm in Hnodup. apply NoDup_app in Hnodup as (_ & Hdis & _).
    exact (Hdis q Hd Hn).
  - exact any_no_decay_spec.
Qed.

(** C6: for each of the four kinds the registry has a factory, and
    [get_lr_scheduler] returns the schedule that this factory builds from
    the stored optimizer, the configured number of warmup steps and the
    total number of training steps, to be stepped once per optimization
    step. *)
Theorem get_lr_scheduler_by_kind self (kind : string) o warmup steps :
  kind ∈ ["linear"; "cosine"; "cosine_w_restarts"; "polynomial"] ->
  hparams self !! "lr_scheduler" = Some (VStr kind) ->
  opt self = Some o ->
  hparams self !! "warmup_steps" = Some warmup ->
  total_steps sub self = inr steps ->
  exists f,
    arg_to_scheduler !! kind = Some f /\
    get_lr_scheduler sub self =
      inr {| scheduler := {| factory := f; optimizer := o;
                             num_warmup_steps := warmup;
                             num_training_steps := steps |};
             interval := "step"; frequency := 1 |} /\
    arg_to_scheduler !! "linear" = Some get_linear_schedule_with_warmup /\
    arg_to_scheduler !! "cosine" = Some get_cosine_schedule_with_warmup /\
    arg_to_scheduler !! "cosine_w_restarts"
      = Some get_cosine_with_hard_restarts_schedule_with_warmup /\
    arg_to_scheduler !! "polynomial"
      = Some get_polynomial_decay_schedule_with_warmup.
Proof.
  intros Hkind Hkey Hopt Hwarm Hsteps.
  assert (Hf : exists f, arg_to_scheduler !! kind = Some f).
  { repeat (apply elem_of_cons in Hkind as [-> | Hkind]; [eexists; reflexivity|]).
    inversion Hkind. }
  destruct Hf as [f Hf]. exists f. split; [exact Hf|]. split.
  - unfold get_lr_scheduler, getattr, registry_lookup, Data.getitem.
    rewrite Hkey. cbn [bind_result]. rewrite Hf. cbn [bind_result].
    rewrite Hopt. cbn [bind_result]. rewrite Hwarm. cbn [bind_result].
    rewrite Hsteps. reflexivity.
  - repeat split; reflexivity.
Qed.

(** C7 (amended): the flag [adafactor] selects the optimizer. When it is
    set, [Adafactor] is built from the two groups and the configured
    learning rate, with [scale_parameter=False] and [relative_step=False]
    and without the configured epsilon; otherwise [AdamW] is built from
    the two groups, the configured learning rate and the configured
    epsilon. The optimizer is stored in [self.opt] and returned with its
    schedule. *)
Theorem configure_optimizers_builds self wd flag lr eps (key : string) f
    warmup steps :
  hparams self !! "weight_decay" = Some wd ->
  hparams self !! "adafactor" = Some flag ->
  hparams self !! "learning_rate" = Some lr ->
  (truthy flag = false -> hparams self !! "adam_epsilon" = Some eps) ->
  hparams self !! "lr_scheduler" = Some (VStr key) ->
  arg_to_scheduler !! key = Some f ->
  hparams self !! "warmup_steps" = Some warmup ->
  (forall o, total_steps sub (set_opt self o) = inr steps) ->
  exists groups o,
    optimizer_grouped_parameters self = inr groups /\
    o = (if truthy flag then Adafactor groups lr false false
         else AdamW groups lr eps) /\
    optimizer_lr o = lr /\
    optimizer_eps o = (if truthy flag then None else Some eps) /\
    configure_optimizers sub self =
      inr (set_opt self o,
           ([o], [ {| scheduler := {| factory := f; optimizer := o;
                                      num_warmup_steps := warmup;
                                      num_training_steps := steps |};
                      interval := "step"; frequency := 1 |} ])).
Proof.
  intros Hwd Hflag Hlr Heps Hkey Hf Hwarm Hsteps.
  destruct (optimizer_grouped_parameters self) as [e|groups] eqn:Hg.
  { unfold optimizer_grouped_parameters, getattr in Hg. rewrite Hwd in Hg.
    discriminate Hg. }
  eexists groups, _. split; [reflexivity|]. split; [reflexivity|].
  split; [destruct (truthy flag); reflexivity|].
  split; [destruct (truthy flag); reflexivity|].
  unfold configure_optimizers. rewrite Hg. cbn [bind_result].
  unfold getattr at 1. rewrite Hflag. cbn [bind_result].
  assert (Hsched : forall o,
    get_lr_scheduler sub (set_opt self o) =
    inr {| scheduler := {| factory := f; optimizer := o;
                           num_warmup_steps := warmup;
                           num_training_steps := steps |};
           interval := "step"; frequency := 1 |}).
  { intros o. unfold get_lr_scheduler, getattr, registry_lookup, Data.getitem.
    cbn [set_opt hparams opt]. rewrite Hkey. cbn [bind_result].
    rewrite Hf. cbn [bind_result]. rewrite Hwarm. cbn [bind_result].
    rewrite Hsteps. reflexivity. }
  unfold getattr. rewrite Hlr. destruct (truthy flag); cbn [bind_result].
  - rewrite Hsched. reflexivity.
  - rewrite (Heps eq_refl). cbn [bind_result]. rewrite Hsched. reflexivity.
Qed.

(** C8: [test_step] is [validation_step] on the same arguments: the same
    result and the same effects, which are those of the method that the
    task module defines, and the same [AttributeError] when it defines
    none. *)
Theorem test_step_is_validation_step self (batch : Batch) (batch_nb : Z)
    (w : world call) :
  test_step sub self batch batch_nb w
  = validation_step sub self batch batch_nb w /\
  (forall f, def_validation_step sub = Some f ->
             test_step sub self batch batch_nb w = f self batch batch_nb w) /\
  (def_validation_step sub = None ->
   test_step sub self batch batch_nb w
   = (inl (AttributeError "validation_step"), w)).
Proof.
  split; [reflexivity|].
  unfold test_step, validation_step. split.
  - intros f Hf. rewrite Hf. reflexivity.
  - intros Hnone. rewrite Hnone. reflexivity.
Qed.

End Optimizers.

Section OptimizerExamples.
Import Py Lightning Cli Fixture.

Lemma configure_optimizers_partitions_witness :
  let self := resolved (hparams_with [] 50 60 100) in
  exists self' o ss decayed not_decayed wd,
    configure_optimizers task self = inr (self', ([o], ss)) /\
    optimizer_groups o =
      [ {| params := decayed; weight_decay := wd |};
        {| params := not_decayed;
           weight_decay := VFloat (S754_zero false) |} ] /\
    1%nat ∈ not_decayed /\ 0%nat ∈ decayed.
Proof.
  intros self.
  set (groups := [ {| params := [0%nat; 3%nat];
                      weight_decay := float 5764607523034235 (-59) |};
                   {| params := [1%nat; 2%nat];
                      weight_decay := VFloat (S754_zero false) |} ]).
  set (o := Adafactor groups (float 7378697629483821 (-67)) false false).
  set (ss := [ {| scheduler := {| factory := get_linear_schedule_with_warmup;
                                  optimizer := o;
                                  num_warmup_steps := VInt 0;
                                  num_training_steps := VInt 1000 |};
                  interval := "step"; frequency := 1 |} ]).
  assert (Hrun : configure_optimizers task self
                 = inr (set_opt self o, ([o], ss)))
    by (vm_compute; reflexivity).
  destruct (configure_optimizers_partitions task self _ o [] ss Hrun)
    as (decayed & not_decayed & wd & _ & Hgroups & Hall & _).
  exists (set_opt self o), o, ss, decayed, not_decayed, wd.
  split; [exact Hrun|]. split; [exact Hgroups|]. split.
  - apply (Hall "encoder.bias" 1%nat).
    apply list_elem_of_further, list_elem_of_here.
  - apply (Hall "encoder.weight" 0%nat). apply list_elem_of_here.
Defined.

Lemma get_lr_scheduler_by_kind_witness :
  let hp := hparams_with [("lr_scheduler", VStr "cosine")] 50 60 100 in
  let o := AdamW [] (VInt 1) (VInt 1) in
  get_lr_scheduler task (set_opt (resolved hp) o) =
  inr {| scheduler := {| factory := get_cosine_schedule_with_warmup;
                         optimizer := o;
                         num_warmup_steps := VInt 0;
                         num_training_steps := VInt 1000 |};
         interval := "step"; frequency := 1 |}.
Proof.
  intros hp o.
  destruct (get_lr_scheduler_by_kind task (set_opt (resolved hp) o) "cosine"
              o (VInt 0) (VInt 1000))
    as (f & Hf & Hrun & _ & Hcosine & _).
  - apply list_elem_of_further, list_elem_of_here.
  - vm_compute. reflexivity.
  - reflexivity.
  - vm_compute. reflexivity.
  - reflexivity.
  - rewrite Hcosine in Hf. injection Hf as <-. exact Hrun.
Defined.

Lemma configure_optimizers_builds_witness :
  let self := resolved (hparams_with [("adafactor", VBool false)] 50 60 100) in
  exists groups,
    optimizer_grouped_parameters self = inr groups /\
    let o := AdamW groups (float 7378697629483821 (-67))
                   (float 6044629098073146 (-79)) in
    configure_optimizers task self =
    inr (set_opt self o,
         ([o], [ {| scheduler := {| factory := get_linear_schedule_with_warmup;
                                    optimizer := o;
                                    num_warmup_steps := VInt 0;
                                    num_training_steps := VInt 1000 |};
                    interval := "step"; frequency := 1 |} ])).
Proof.
  intros self.
  destruct (configure_optimizers_builds task self
              (float 5764607523034235 (-59)) (VBool false)
              (float 7378697629483821 (-67)) (float 6044629098073146 (-79))
              "linear" get_linear_schedule_with_warmup (VInt 0) (VInt 1000))
    as (groups & o & Hgroups & Ho & _ & _ & Hrun).
  - vm_compute. reflexivity.
  - vm_compute. reflexivity.
  - vm_compute. reflexivity.
  - intros _. vm_compute. reflexivity.
  - vm_compute. reflexivity.
  - reflexivity.
  - vm_compute. reflexivity.
  - intros o. reflexivity.
  - exists groups. split; [exact Hgroups|]. cbn [truthy] in Ho.
    rewrite Ho in Hrun. exact Hrun.
Defined.

(** C7, as stated, does not hold: with the flag set (its default) the
    optimizer is [Adafactor], built without the configured epsilon. *)
Lemma adafactor_is_built_without_epsilon :
  ~ (forall (self self' : BaseTransformer) o os ss lr eps,
       hparams self !! "learning_rate" = Some lr ->
       hparams self !! "adam_epsilon" = Some eps ->
       configure_optimizers task self = inr (self', (o :: os, ss)) ->
       optimizer_lr o = lr /\ optimizer_eps o = Some eps).
Proof.
  intros Hclaim.
  set (self := resolved (hparams_with [] 50 60 100)).
  set (groups := [ {| params := [0%nat; 3%nat];
                      weight_decay := float 5764607523034235 (-59) |};
                   {| params := [1%nat; 2%nat];
                      weight_decay := VFloat (S754_zero false) |} ]).
  set (o := Adafactor groups (float 7378697629483821 (-67)) false false).
  set (ss := [ {| scheduler := {| factory := get_linear_schedule_with_warmup;
                                  optimizer := o;
                                  num_warmup_steps := VInt 0;
                                  num_training_steps := VInt 1000 |};
                  interval := "step"; frequency := 1 |} ]).
  destruct (Hclaim self (set_opt self o) o [] ss
              (float 7378697629483821 (-67)) (float 6044629098073146 (-79)))
    as [_ Heps].
  - vm_compute. reflexivity.
  - vm_compute. reflexivity.
  - vm_compute. reflexivity.
  - discriminate Heps.
Qed.

End OptimizerExamples.

(** ** Argument parsing and [generic_train] *)

Section Training.
Import Py Lightning Cli.

(** A parse stores exactly the declared attributes. *)
Lemma store_all_lookup parser given :
  forall (ns args : gmap string value),
    store_all parser given ns = inr args ->
    forall k,
      (k ∉ map dest_of parser -> args !! k = ns !! k) /\
      (k ∈ map dest_of parser -> is_Some (args !! k)).
Proof.
  induction parser as [|a parser IH]; intros ns args Hrun k; simpl in Hrun.
  - injection Hrun as <-. split; [reflexivity|]. intros Hin. inversion Hin.
  - assert (Hstep : exists v, store_all parser given (<[dest_of a := v]> ns)
                              = inr args).
    { destruct (assoc (flag a) given) as [v|].
      - destruct (accepts a v); [eauto | discriminate Hrun].
      - destruct (required a); [discriminate Hrun | eauto]. }
    destruct Hstep as [v Hrest].
    destruct (IH _ _ Hrest k) as [Hout Hin]. cbn [map]. split.
    + rewrite not_elem_of_cons. intros [Hne Hk].
      rewrite (Hout Hk). now rewrite lookup_insert_ne.
    + rewrite elem_of_cons. intros [-> | Hk]; [|now apply Hin].
      destruct (decide (dest_of a ∈ map dest_of parser)) as [Hd | Hd].
      * now apply Hin.
      * rewrite (Hout Hd), lookup_insert_eq. eauto.
Qed.

Lemma parse_args_lookup parser given args :
  parse_args parser given = inr args ->
  forall k,
    (k ∉ map dest_of parser -> args !! k = None) /\
    (k ∈ map dest_of parser -> is_Some (args !! k)).
Proof.
  unfold parse_args. destruct (forallb _ given); [|discriminate].
  intros Hrun k. destruct (store_all_lookup _ _ _ _ Hrun k) as [Hout Hin].
  split; [|exact Hin]. intros Hk. now rewrite (Hout Hk), lookup_empty.
Qed.

Lemma parse_args_ok parser given :
  is_ok (parse_args parser given) = true ->
  parse_args parser given
  = inr match parse_args parser given with inr ns => ns | inl _ => ∅ end.
Proof. destruct (parse_args parser given); [discriminate | reflexivity]. Qed.

(** The two parsers declare [--monitor] and [--seed]; they declare no
    [--val_metric], no [--local] and no [--gpus]. *)
Lemma both_parsers_declare :
  ("monitor" ∈ map dest_of both_parsers) /\
  ("seed" ∈ map dest_of both_parsers) /\
  ("val_metric" ∉ map dest_of both_parsers) /\
  ("local" ∉ map dest_of both_parsers) /\
  ("gpus" ∉ map dest_of both_parsers).
Proof.
  repeat split;
    first [ apply (bool_decide_eq_true_1 _) | apply (bool_decide_eq_false_1 _) ];
    vm_compute; reflexivity.
Qed.

Section Run.
Context `{Surroundings}.

(** C10: on a namespace that the two parsers produce, [generic_train]
    never returns and never builds the trainer; [val_metric] is not an
    attribute of the namespace, and once the generators are seeded and the
    output directory of the model is created, the run ends with
    [AttributeError] on [args.val_metric]. *)
Theorem generic_train_fails_before_trainer model args given logger
    extra_train_kwargs (w : world call) :
  parse_args both_parsers given = inr args ->
  let run := generic_train model args logger extra_train_kwargs w in
  args !! "val_metric" = None /\
  is_ok (fst run) = false /\
  (trainer_constructed (snd run) -> trainer_constructed w) /\
  (forall d : string,
     hparams model !! "output_dir" = Some (VStr d) ->
     mkdir_succeeds d = true ->
     exists seed,
       args !! "seed" = Some seed /\
       run = (inl (AttributeError "val_metric"),
              World (stdout w)
                    (calls w ++ [seed_everything seed; mkdir d true]))).
Proof.
  intros Hparse run.
  destruct both_parsers_declare as (_ & Hseed & Hval & _).
  apply (parse_args_lookup _ _ _ Hparse) in Hseed as [seed Hseed].
  apply (parse_args_lookup _ _ _ Hparse) in Hval.
  split; [exact Hval|].
  assert (Hcalls : forall extra,
    (forall t, from_argparse_args t ∉ extra) ->
    trainer_constructed (World (stdout w) (calls w ++ extra)) ->
    trainer_constructed w).
  { intros extra Hextra [t Ht]. exists t. cbn [calls] in Ht.
    apply elem_of_app in Ht as [Ht | Ht]; [exact Ht|].
    now apply Hextra in Ht. }
  assert (Hone : forall t c, (forall t', c <> from_argparse_args t') ->
                             from_argparse_args t ∉ [c]).
  { intros t c Hc Hin. apply list_elem_of_singleton in Hin.
    symmetry in Hin. now apply Hc in Hin. }
  assert (Htwo : forall t c1 c2,
            (forall t', c1 <> from_argparse_args t') ->
            (forall t', c2 <> from_argparse_args t') ->
            from_argparse_args t ∉ [c1; c2]).
  { intros t c1 c2 H1 H2 Hin.
    apply elem_of_cons in Hin as [Hin | Hin].
    - symmetry in Hin. now apply H1 in Hin.
    - now apply Hone in Hin. }
  subst run.
  unfold generic_train, bind, lift, emit, ret, raise, getattr.
  rewrite Hseed. cbn [stdout calls].
  destruct (hparams model !! "output_dir") as [dir|] eqn:Hdir.
  - destruct (Path dir) as [e|odir] eqn:Hpath.
    + cbn [fst snd is_ok]. split; [reflexivity|]. split.
      * apply Hcalls. intros t. now apply Hone.
      * intros d [= ->]. discriminate Hpath.
    + cbn [stdout calls]. rewrite <- app_assoc. cbn [app].
      assert (Hnot : forall t, from_argparse_args t
                               ∉ [seed_everything seed; mkdir odir true]).
      { intros t. now apply Htwo. }
      destruct (mkdir_succeeds odir) eqn:Hmk.
      * rewrite Hval. cbn [fst snd is_ok].
        split; [reflexivity|]. split; [now apply Hcalls|].
        intros d [= ->]. injection Hpath as ->. eauto.
      * cbn [fst snd is_ok].
        split; [reflexivity|]. split; [now apply Hcalls|].
        intros d [= ->]. injection Hpath as ->. congruence.
  - cbn [fst snd is_ok]. split; [reflexivity|]. split.
    + apply Hcalls. intros t. now apply Hone.
    + intros d Hd. discriminate Hd.
Qed.

End Run.

Section RunExample.
Import Fixture.

Lemma generic_train_fails_before_trainer_witness :
  generic_train (resolved (hparams_with [] 50 60 100)) parsed_command_line
                (LoggerFlag true) ∅ (World [] [])
  = (inl (AttributeError "val_metric"),
     World [] [seed_everything (VInt 42); mkdir "out" true]).
Proof.
  assert (Hparse : parse_args both_parsers command_line
                   = inr parsed_command_line)
    by (apply parse_args_ok; vm_compute; reflexivity).
  destruct (generic_train_fails_before_trainer
              (resolved (hparams_with [] 50 60 100)) parsed_command_line
              command_line (LoggerFlag true) ∅ (World [] []) Hparse)
    as (_ & _ & _ & Hrun).
  destruct (Hrun "out") as (seed & Hseed & Hresult).
  - vm_compute. reflexivity.
  - reflexivity.
  - assert (Hs : parsed_command_line !! "seed" = Some (VInt 42))
      by (vm_compute; reflexivity).
    rewrite Hs in Hseed. injection Hseed as <-. exact Hresult.
Defined.

End RunExample.

End Training.

(** * Further properties *)

(** ** Text cleaning, continued *)

Section CleanTextMore.
Import Text Clean.

Lemma replace_from_sublist (old s : list N) (skip : nat) :
  replace_from old [] s skip `sublist_of` s.
Proof.
  revert skip. induction s as [|c s IH]; intros skip; simpl.
  - destruct old; constructor.
  - destruct skip as [|k].
    + destruct (startswith old (c :: s)).
      * destruct old; simpl.
        -- apply sublist_skip, IH.
        -- apply sublist_cons, IH.
      * apply sublist_skip, IH.
    + apply sublist_cons, IH.
Qed.

(** [strip] returns a segment of its argument, between two runs of
    whitespace. *)
Lemma lstrip_split (s : list N) :
  exists p, s = p ++ lstrip s /\ Forall (fun c => isspace c = true) p.
Proof.
  induction s as [|x s (p & Hp & Hall)]; simpl.
  - exists []. split; [reflexivity | constructor].
  - destruct (isspace x) eqn:Hx.
    + exists (x :: p). split; [simpl; now rewrite <- Hp | now constructor].
    + exists []. split; [reflexivity | constructor].
Qed.

Lemma strip_segment (s : list N) :
  exists p q,
    s = p ++ strip s ++ q /\
    Forall (fun c => isspace c = true) p /\
    Forall (fun c => isspace c = true) q.
Proof.
  unfold strip, rstrip.
  destruct (lstrip_split (reverse s)) as (q & Hq & Hqs).
  set (u := lstrip (reverse s)) in *.
  destruct (lstrip_split (reverse u)) as (p & Hp & Hps).
  exists p, (reverse q). split; [|split; [exact Hps | now apply Forall_reverse]].
  rewrite app_assoc, <- Hp, <- reverse_app, <- Hq.
  symmetry. apply reverse_involutive.
Qed.

Lemma lstrip_id (s : list N) :
  (forall c, head s = Some c -> isspace c = false) -> lstrip s = s.
Proof.
  destruct s as [|x s]; [reflexivity|]. intros Hh. simpl.
  now rewrite (Hh x eq_refl).
Qed.

Lemma strip_id (s : list N) : trimmed s -> strip s = s.
Proof.
  intros [Hh Hl]. unfold strip, rstrip.
  rewrite (lstrip_id (reverse s)).
  - rewrite reverse_involutive. now apply lstrip_id.
  - intros c Hc. rewrite head_reverse in Hc. now apply Hl.
Qed.

Lemma replace_pair_absent (b : N) (s : list N) :
  contains [b; b] s = false -> replace [b; b] [] s = s.
Proof.
  induction s as [|x s IH]; [reflexivity|].
  cbn [contains]. intros Hc. apply orb_false_elim in Hc as [Hs Hc].
  rewrite replace_pair_keep by exact Hs. now rewrite IH.
Qed.

(** X1: [clean_text] only deletes characters: what it returns is a
    subsequence of its argument, in the same order, and is no longer. *)
Theorem clean_text_only_deletes (s : list N) :
  clean_text s `sublist_of` s /\ (length (clean_text s) <= length s)%nat.
Proof.
  assert (Hsub : clean_text s `sublist_of` s).
  { unfold clean_text, replace.
    etransitivity; [apply replace_from_sublist|].
    etransitivity; [apply replace_from_sublist|].
    etransitivity; [apply replace_from_sublist|].
    destruct (strip_segment s) as (p & q & Hs & _).
    rewrite Hs at 2. apply sublist_inserts_l, sublist_inserts_r. reflexivity. }
  split; [exact Hsub | now apply sublist_length].
Qed.

(** X2: a text that is already clean is returned as it is: no surrounding
    whitespace, no newline, no doubled backtick, no double quote. *)
Theorem clean_text_fixes_clean_text (s : list N) :
  trimmed s ->
  NEWLINE ∉ s ->
  contains [BACKTICK; BACKTICK] s = false ->
  DQUOTE ∉ s ->
  clean_text s = s.
Proof.
  intros Ht Hn Hb Hq. unfold clean_text.
  rewrite (strip_id s Ht), (replace_char_absent NEWLINE s Hn).
  rewrite (replace_pair_absent BACKTICK s Hb).
  now apply replace_char_absent.
Qed.

Lemma clean_text_fixes_clean_text_witness :
  clean_text (of_string "a clean `line`") = of_string "a clean `line`".
Proof.
  apply clean_text_fixes_clean_text.
  - split; intros c Hc; vm_compute in Hc; injection Hc as <-; reflexivity.
  - apply (bool_decide_eq_false_1 _). vm_compute. reflexivity.
  - vm_compute. reflexivity.
  - apply (bool_decide_eq_false_1 _). vm_compute. reflexivity.
Defined.

(** X3: a text of whitespace only (the empty text included) is cleaned to
    the empty text. *)
Theorem clean_text_of_blank (s : list N) :
  Forall (fun c => isspace c = true) s -> clean_text s = [].
Proof.
  intros Hall.
  assert (Hl : forall t, Forall (fun c => isspace c = true) t -> lstrip t = []).
  { induction t as [|x t IH]; [reflexivity|].
    intros Ht. apply Forall_cons in Ht as [Hx Ht]. simpl. rewrite Hx. auto. }
  unfold clean_text, strip, rstrip.
  rewrite (Hl (reverse s)) by now apply Forall_reverse.
  reflexivity.
Qed.

Lemma clean_text_of_blank_witness :
  clean_text [SPACE; NEWLINE; 9; SPACE]%N = [].
Proof.
  apply clean_text_of_blank. repeat constructor.
Defined.

End CleanTextMore.

(** ** The dataset adapter, continued *)

Section DatasetMore.
Import Text Clean Py Data.



(** X5: whatever the tokenizer answers, fetching an item prints exactly
    one line, the cleaned source text after ["Input Text:  "], when
    [print_text] is set, and nothing otherwise; it makes no call to the
    training framework. *)
Theorem getitem_prints_cleaned_text {call : Type} dataset tok input_length
    output_length print_text num_samples self index text headline
    (w : world call) :
  __init__ dataset tok input_length output_length print_text num_samples
    = inr self ->
  Frame.text dataset !! index = Some text ->
  Frame.headline dataset !! index = Some headline ->
  snd (__getitem__ self index w) =
  if print_text
  then World (stdout w ++ [of_string "Input Text:  " ++ clean_text text])
             (calls w)
  else w.
Proof.
  intros Hinit Ht Hh.
  apply init_stores in Hinit
    as (_ & Htext & Hhead & _ & Hin & Htk & Hout & Hprint & _).
  unfold __getitem__, convert_to_features, self_getattr, at_index, getitem.
  unfold bind, lift, ret.
  rewrite Htext, Hhead, Hprint, Htk, Hin, Hout. cbn [bind_result as_column].
  rewrite Ht, Hh. cbn [as_flag as_tokenizer as_length].
  destruct print_text; unfold print; cbn -[squeeze clean_text of_string];
    destruct (batch_encode_plus tok [clean_text text] input_length
                PadMaxLength true PT) as [e|src];
    cbn -[squeeze clean_text of_string]; try reflexivity;
    destruct (batch_encode_plus tok [clean_text headline] output_length
                PadMaxLength true PT) as [e|tgt];
    cbn -[squeeze clean_text of_string]; try reflexivity;
    destruct (src !! "input_ids"); cbn -[squeeze]; try reflexivity;
    destruct (tgt !! "input_ids"); cbn -[squeeze]; try reflexivity;
    destruct (src !! "attention_mask"); cbn -[squeeze]; try reflexivity;
    destruct (tgt !! "attention_mask"); reflexivity.
Qed.

Lemma getitem_prints_cleaned_text_witness :
  exists self,
    __init__ (Frame.Make [[SPACE; 97; DQUOTE; 98; SPACE]%N] [of_string "h"]
                         [of_string "t"])
             char_tokenizer 4 3 true None = inr self /\
    snd (__getitem__ (call := Empty_set) self 0 (World [] []))
    = World [of_string "Input Text:  ab"] [].
Proof.
  eexists. split; [reflexivity|].
  apply (getitem_prints_cleaned_text
           (Frame.Make [[SPACE; 97; DQUOTE; 98; SPACE]%N] [of_string "h"]
                       [of_string "t"])
           char_tokenizer 4%nat 3%nat true None _ 0%nat
           [SPACE; 97; DQUOTE; 98; SPACE]%N (of_string "h") (World [] []));
    reflexivity.
Defined.

(** X6: without a sample count, and with the count 0 as well, the
    constructor keeps every example: the length of the dataset is the
    number of rows of the text column. *)
Theorem len_after_init dataset tok input_length output_length print_text
    num_samples :
  num_samples_set num_samples = false ->
  exists self,
    __init__ dataset tok input_length output_length print_text num_samples
      = inr self /\
    __len__ self = inr (length (Frame.text dataset)).
Proof.
  intros Hn. unfold __init__. rewrite Hn. cbn [bind_result].
  eexists. split; [reflexivity|].
  unfold __len__, self_getattr. simplify_map_eq. reflexivity.
Qed.

Lemma len_after_init_witness :
  exists self,
    __init__ (Frame.Make [of_string "a"; of_string "b"]
                         [of_string "c"; of_string "d"]
                         [of_string "e"; of_string "f"])
             char_tokenizer 4 3 false (Some 0) = inr self /\
    __len__ self = inr 2%nat.
Proof.
  apply (len_after_init
           (Frame.Make [of_string "a"; of_string "b"]
                       [of_string "c"; of_string "d"]
                       [of_string "e"; of_string "f"])).
  reflexivity.
Defined.

End DatasetMore.

(** ** Argument parsing, continued *)

Section ParsingMore.
Import Py Lightning Cli.


(** What a parse stores under the attribute of a declared argument, when
    no two arguments share an attribute. *)
Lemma store_all_value parser given :
  NoDup (map dest_of parser) ->
  forall (ns args : gmap string value),
    store_all parser given ns = inr args ->
    forall a, a ∈ parser ->
      match assoc (flag a) given with
      | Some v => accepts a v = true /\ args !! dest_of a = Some v
      | None => required a = false /\ args !! dest_of a = Some (default_of a)
      end.
Proof.
  induction parser as [|b parser IH]; intros Hnd ns args Hrun a Hin.
  - inversion Hin.
  - cbn [map] in Hnd. apply NoDup_cons in Hnd as [Hb Hnd].
    simpl in Hrun. apply elem_of_cons in Hin as [-> | Hin].
    + destruct (assoc (flag b) given) as [v|].
      * destruct (accepts b v); [|discriminate Hrun]. split; [reflexivity|].
        destruct (store_all_lookup _ _ _ _ Hrun (dest_of b)) as [Hout _].
        rewrite (Hout Hb). apply lookup_insert_eq.
      * destruct (required b); [discriminate Hrun|]. split; [reflexivity|].
        destruct (store_all_lookup _ _ _ _ Hrun (dest_of b)) as [Hout _].
        rewrite (Hout Hb). apply lookup_insert_eq.
    + destruct (assoc (flag b) given) as [v|].
      * destruct (accepts b v); [|discriminate Hrun]. eapply IH; eauto.
      * destruct (required b); [discriminate Hrun|]. eapply IH; eauto.
Qed.

Lemma both_parsers_NoDup : NoDup (map dest_of both_parsers).
Proof. apply (bool_decide_eq_true_1 _). vm_compute. reflexivity. Qed.

Lemma parse_args_value given args a :
  parse_args both_parsers given = inr args ->
  a ∈ both_parsers ->
  match assoc (flag a) given with
  | Some v => accepts a v = true /\ args !! dest_of a = Some v
  | None => required a = false /\ args !! dest_of a = Some (default_of a)
  end.
Proof.
  unfold parse_args. destruct (forallb _ given); [|discriminate].
  intros Hrun Hin. exact (store_all_value _ _ both_parsers_NoDup _ _ Hrun a Hin).
Qed.



(** The arguments that the properties below look at. *)
Lemma declared_arguments :
  Argument "--output_dir" None (Some VNone) TyStr false Store None
    ∈ both_parsers /\
  Argument "--model_name_or_path" None (Some VNone) TyStr true Store None
    ∈ both_parsers /\
  Argument "--lr_scheduler" None (Some (VStr "linear")) TyStr false Store
           (Some arg_to_scheduler_choices)
    ∈ both_parsers /\
  Argument "--train_batch_size" None (Some (VInt 32)) TyInt false Store None
    ∈ both_parsers /\
  Argument "--eval_batch_size" None (Some (VInt 32)) TyInt false Store None
    ∈ both_parsers.
Proof.
  repeat split; apply list_elem_of_lookup;
    [ exists 0%nat | exists 22%nat | exists 31%nat | exists 37%nat
    | exists 38%nat ];
    vm_compute; reflexivity.
Qed.



(** X9: the scheduler name of a parsed namespace is a key of the registry
    [arg_to_scheduler]: the lookup in [get_lr_scheduler] cannot fail on
    parsed hyperparameters. *)
Theorem parsed_lr_scheduler_is_registered given args :
  parse_args both_parsers given = inr args ->
  exists (kind : string) f,
    args !! "lr_scheduler" = Some (VStr kind) /\
    arg_to_scheduler !! kind = Some f.
Proof.
  intros Hparse. destruct declared_arguments as (_ & _ & Hin & _).
  pose proof (parse_args_value _ _ _ Hparse Hin) as Hv. cbn [flag] in Hv.
  destruct (assoc "--lr_scheduler" given) as [v|].
  - destruct Hv as [Hacc Hval]. unfold accepts in Hacc.
    cbn [action type choices] in Hacc.
    destruct v as [| | | |kind]; try discriminate Hacc.
    exists kind. unfold arg_to_scheduler_choices in Hacc. cbn [existsb] in Hacc.
    rewrite orb_false_r, !orb_true_iff, !String.eqb_eq in Hacc.
    destruct Hacc as [-> | [-> | [-> | ->]]]; eexists; split;
      first [exact Hval | reflexivity].
  - destruct Hv as [_ Hval]. exists "linear". eexists. split;
      [exact Hval | reflexivity].
Qed.

Lemma parsed_lr_scheduler_is_registered_witness :
  exists (kind : string) f,
    Fixture.parsed_command_line !! "lr_scheduler" = Some (VStr kind) /\
    arg_to_scheduler !! kind = Some f.
Proof.
  apply (parsed_lr_scheduler_is_registered Fixture.command_line).
  apply parse_args_ok. vm_compute. reflexivity.
Defined.

Section Construct.
Context `{Hub}.

(** X10: on a namespace parsed from a command line without
    [--output_dir] the construction raises [TypeError]: the attribute is
    [None], and a path cannot be made of it. *)
Theorem init_without_output_dir given hp config tokenizer num_labels model
    kw :
  parse_args both_parsers given = inr hp ->
  assoc "--output_dir" given = None ->
  __init__ hp config tokenizer num_labels model kw
  = inl (TypeError "expected str, bytes or os.PathLike object").
Proof.
  intros Hparse Hmissing. destruct declared_arguments as (Hin & _).
  pose proof (parse_args_value _ _ _ Hparse Hin) as Hv. cbn [flag] in Hv.
  rewrite Hmissing in Hv. destruct Hv as [_ Hval].
  unfold __init__, resolve_components, getattr.
  change (dest_of (Argument "--output_dir" None (Some VNone) TyStr false
                            Store None)) with "output_dir" in Hval.
  rewrite Hval. reflexivity.
Qed.

(** X11: the parsers declare none of the three target lengths, so the
    construction never succeeds on a namespace that they alone produce:
    once the components are resolved it raises [AttributeError] on
    [max_target_length]. *)
Theorem init_needs_target_lengths given hp config tokenizer num_labels model
    kw :
  parse_args both_parsers given = inr hp ->
  let r := __init__ hp config tokenizer num_labels model kw in
  is_ok r = false /\
  (forall self,
     resolve_components hp config tokenizer num_labels model kw = inr self ->
     r = inl (AttributeError "max_target_length")).
Proof.
  intros Hparse r. subst r.
  assert (Hnone : hp !! "max_target_length" = None).
  { apply (parse_args_lookup _ _ _ Hparse).
    apply (bool_decide_eq_false_1 _). vm_compute. reflexivity. }
  unfold __init__.
  destruct (resolve_components hp config tokenizer num_labels model kw)
    as [e|self] eqn:Hr.
  - split; [reflexivity|]. intros self Hs. discriminate Hs.
  - apply resolve_components_hparams in Hr as [Hhp _].
    cbn [bind_result]. rewrite Hhp. unfold getattr. rewrite Hnone.
    split; [reflexivity|]. intros _ _. reflexivity.
Qed.

End Construct.

End ParsingMore.

Section ParsingExamples.
Import Py Lightning Cli Fixture.

Lemma init_without_output_dir_witness :
  let given := [("--model_name_or_path", VStr "google/flan-t5-small")] in
  parse_args both_parsers given = inr (parsed given) /\
  __init__ (parsed given) None None None None ∅
  = inl (TypeError "expected str, bytes or os.PathLike object").
Proof.
  intros given.
  assert (Hparse : parse_args both_parsers given = inr (parsed given))
    by (apply parse_args_ok; vm_compute; reflexivity).
  split; [exact Hparse|].
  apply (init_without_output_dir given); [exact Hparse | reflexivity].
Defined.

Lemma init_needs_target_lengths_witness :
  parse_args both_parsers command_line = inr parsed_command_line /\
  __init__ parsed_command_line None None None None ∅
  = inl (AttributeError "max_target_length").
Proof.
  assert (Hparse : parse_args both_parsers command_line
                   = inr parsed_command_line)
    by (apply parse_args_ok; vm_compute; reflexivity).
  split; [exact Hparse|].
  destruct (init_needs_target_lengths command_line parsed_command_line
              None None None None ∅ Hparse) as [_ Hres].
  destruct (resolve_components parsed_command_line None None None None ∅)
    as [e|self] eqn:Hr.
  - assert (Hok : is_ok (resolve_components parsed_command_line
                           None None None None ∅) = true)
      by (vm_compute; reflexivity).
    rewrite Hr in Hok. discriminate Hok.
  - exact (Hres self eq_refl).
Defined.

End ParsingExamples.

(** ** Construction of the training module, continued *)

Section ConstructionMore.
Import Py Lightning.
Context `{Hub}.

Lemma init_inversion hp config tokenizer num_labels model kw self :
  __init__ hp config tokenizer num_labels model kw = inr self ->
  exists self0 tr va te,
    resolve_components hp config tokenizer num_labels model kw = inr self0 /\
    hp !! "max_target_length" = Some tr /\
    hp !! "val_max_target_length" = Some va /\
    hp !! "test_max_target_length" = Some te /\
    le tr va = inr true /\
    le tr te = inr true /\
    self = set_target_lens self0
             (<["train" := tr]> (<["val" := va]> (<["test" := te]> ∅))).
Proof.
  unfold __init__. intros Hinit.
  destruct (resolve_components hp config tokenizer num_labels model kw)
    as [e|self0] eqn:Hr; [discriminate Hinit|].
  cbn [bind_result] in Hinit.
  destruct (resolve_components_hparams _ _ _ _ _ _ _ Hr) as [Hhp _].
  rewrite Hhp in Hinit. unfold getattr in Hinit.
  destruct (hp !! "max_target_length") as [tr|]; [|discriminate Hinit].
  destruct (hp !! "val_max_target_length") as [va|]; [|discriminate Hinit].
  destruct (hp !! "test_max_target_length") as [te|]; [|discriminate Hinit].
  cbn [bind_result set_target_lens target_lens] in Hinit.
  unfold check_target_lens, Data.getitem in Hinit.
  rewrite lookup_insert_eq in Hinit.
  rewrite (lookup_insert_ne _ "train" "val") in Hinit by discriminate.
  rewrite lookup_insert_eq in Hinit.
  rewrite (lookup_insert_ne _ "train" "test") in Hinit by discriminate.
  rewrite (lookup_insert_ne _ "val" "test") in Hinit by discriminate.
  rewrite lookup_insert_eq in Hinit. cbn [bind_result] in Hinit.
  destruct (le tr va) as [e1|[]] eqn:Hv; try discriminate Hinit.
  destruct (le tr te) as [e2|[]] eqn:Ht; try discriminate Hinit.
  cbn [bind_result negb] in Hinit. injection Hinit as <-.
  exists self0, tr, va, te. repeat split; first [reflexivity | assumption].
Qed.

(** X13: when the loop over the override names completes, the names
    with a set override were attributes of the configuration and now hold
    the override, every other attribute holds what it held, and no
    attribute has been added. *)
Theorem overrides_written hp (cfg cfg' : gmap string value) :
  apply_extra_model_params hp cfg extra_model_params = inr cfg' ->
  forall p,
    (p ∈ extra_model_params -> override_set hp p = true ->
     is_Some (cfg !! p) /\ cfg' !! p = hp !! p) /\
    (p ∉ extra_model_params \/ override_set hp p = false ->
     cfg' !! p = cfg !! p) /\
    (is_Some (cfg' !! p) <-> is_Some (cfg !! p)).
Proof.
  intros Hrun p.
  destruct (apply_extra_model_params_ok _ _ _ _ Hrun p) as [Hset Hkeep].
  split; [exact Hset|]. split; [exact Hkeep|].
  destruct (decide (p ∈ extra_model_params)) as [Hin | Hout].
  - destruct (override_set hp p) eqn:Ho.
    + destruct (Hset Hin eq_refl) as [Hsome Hv]. rewrite Hv.
      unfold override_set, getattr_default in Ho.
      destruct (hp !! p) as [v|]; [|discriminate Ho]. split; eauto.
    + rewrite Hkeep by auto. reflexivity.
  - rewrite Hkeep by auto. reflexivity.
Qed.

(** X14: the loop fails if and only if some override name is set in the
    hyperparameters and is no attribute of the configuration; the failure
    is the assertion about such a name. *)
Theorem overrides_rejected hp (cfg : gmap string value) :
  let r := apply_extra_model_params hp cfg extra_model_params in
  (is_ok r = false <->
   exists p, p ∈ extra_model_params /\ override_set hp p = true /\
             cfg !! p = None) /\
  (forall e, r = inl e ->
     exists p, p ∈ extra_model_params /\ override_set hp p = true /\
       cfg !! p = None /\
       e = AssertionError
             ("model config doesn't have a `" ++ p ++ "` attribute") []).
Proof.
  intros r. subst r. split; [|apply apply_extra_model_params_fails].
  destruct (apply_extra_model_params hp cfg extra_model_params)
    as [e|cfg'] eqn:Hrun; cbn [is_ok]; split.
  - intros _.
    destruct (apply_extra_model_params_fails _ _ _ _ Hrun)
      as (p & Hin & Hset & Hnone & _). eauto.
  - reflexivity.
  - discriminate.
  - intros (p & Hin & Hset & Hnone).
    destruct (apply_extra_model_params_ok _ _ _ _ Hrun p) as [Hs _].
    destruct (Hs Hin Hset) as [[v Hv] _]. congruence.
Qed.


End ConstructionMore.

Section ConstructionMoreExamples.
Import Py Lightning Cli Fixture.


Lemma overrides_written_witness :
  let hp : gmap string value :=
    <["dropout" := float 5404319552844595 (-55)]> ∅ in
  let cfg : gmap string value :=
    <["dropout" := float 7205759403792794 (-56)]>
    (<["d_model" := VInt 512]> ∅) in
  exists cfg',
    apply_extra_model_params hp cfg extra_model_params = inr cfg' /\
    cfg' !! "dropout" = Some (float 5404319552844595 (-55)) /\
    cfg' !! "d_model" = Some (VInt 512).
Proof.
  intros hp cfg.
  set (cfg' := <["dropout" := float 5404319552844595 (-55)]> cfg).
  assert (Hrun : apply_extra_model_params hp cfg extra_model_params
                 = inr cfg') by (vm_compute; reflexivity).
  exists cfg'. split; [exact Hrun|]. split.
  - destruct (overrides_written hp cfg cfg' Hrun "dropout")
      as (Hset & _ & _).
    destruct Hset as [_ Hv].
    + apply list_elem_of_further, list_elem_of_further, list_elem_of_here.
    + reflexivity.
    + rewrite Hv. reflexivity.
  - destruct (overrides_written hp cfg cfg' Hrun "d_model")
      as (_ & Hkeep & _).
    rewrite Hkeep; [reflexivity|]. right. reflexivity.
Defined.

End ConstructionMoreExamples.

(** ** Optimizer and schedule, continued *)

Section OptimizersMore.
Import Py Lightning Cli.
Context {call Batch Output Loader : Type}.
Context (sub : Subclass (call := call) (Batch := Batch) (Output := Output)
                        (Loader := Loader)).

(** X15: a scheduler name that is not a key of the registry raises
    [KeyError], before the optimizer or the step count is looked at. *)
Theorem get_lr_scheduler_unknown_kind self (kind : string) :
  hparams self !! "lr_scheduler" = Some (VStr kind) ->
  arg_to_scheduler !! kind = None ->
  get_lr_scheduler sub self = inl (KeyError kind).
Proof.
  intros Hkey Hnone.
  unfold get_lr_scheduler, getattr, registry_lookup, Data.getitem.
  rewrite Hkey. cbn [bind_result]. rewrite Hnone. reflexivity.
Qed.

(** X16: on a module as the constructor leaves it, [get_lr_scheduler]
    raises [AttributeError] on [self.opt]: the optimizer is stored by
    [configure_optimizers] only. *)
Theorem get_lr_scheduler_before_optimizer `{Hub} hp config tokenizer
    num_labels model kw self (kind : string) f :
  __init__ hp config tokenizer num_labels model kw = inr self ->
  hp !! "lr_scheduler" = Some (VStr kind) ->
  arg_to_scheduler !! kind = Some f ->
  get_lr_scheduler sub self = inl (AttributeError "opt").
Proof.
  intros Hinit Hkey Hf.
  apply init_inversion in Hinit as (self0 & tr & va & te & Hr & _ & _ & _ & _ & _ & ->).
  pose proof Hr as Hr'. apply resolve_components_hparams in Hr as [Hhp _].
  assert (Hopt : opt self0 = None).
  { unfold resolve_components in Hr'. repeat step_result.
    injection Hr' as <-. reflexivity. }
  unfold get_lr_scheduler, getattr, registry_lookup, Data.getitem.
  cbn [set_target_lens hparams opt]. rewrite Hhp, Hkey. cbn [bind_result].
  rewrite Hf. cbn [bind_result]. rewrite Hopt. reflexivity.
Qed.

(** X17: when [configure_optimizers] returns, it returns one optimizer
    and one schedule; the optimizer has two parameter groups, is the one
    now stored in [self.opt] and the one the schedule drives; the schedule
    is stepped once per optimization step; nothing else of the module has
    changed. *)
Theorem configure_optimizers_returns self self' os ss :
  configure_optimizers sub self = inr (self', (os, ss)) ->
  exists o s,
    os = [o] /\ ss = [s] /\
    self' = set_opt self o /\
    opt self' = Some o /\
    optimizer (scheduler s) = o /\
    interval s = "step" /\ frequency s = 1 /\
    length (optimizer_groups o) = 2%nat /\
    hparams self' = hparams self /\
    model self' = model self.
Proof.
  unfold configure_optimizers. intros Hc.
  destruct (optimizer_grouped_parameters self) as [e|gs] eqn:Hg;
    [discriminate Hc|]. cbn [bind_result] in Hc.
  apply groups_unfold in Hg as (wd & _ & ->).
  destruct (getattr (hparams self) "adafactor") as [e|flag];
    [discriminate Hc|]. cbn [bind_result] in Hc.
  match type of Hc with
  | context [bind_result ?r _] =>
      destruct r as [e|o] eqn:Ho; [discriminate Hc|]
  end.
  cbn [bind_result] in Hc.
  destruct (get_lr_scheduler sub (set_opt self o)) as [e|s] eqn:Hs;
    [discriminate Hc|]. cbn [bind_result] in Hc.
  injection Hc as <- <- <-.
  assert (Hsched : optimizer (scheduler s) = o /\
                   interval s = "step" /\ frequency s = 1).
  { unfold get_lr_scheduler in Hs. cbn [set_opt opt hparams] in Hs.
    repeat step_result. injection Hs as <-. auto. }
  assert (Hlen : length (optimizer_groups o) = 2%nat).
  { destruct (truthy flag); repeat step_result; injection Ho as <-;
      reflexivity. }
  destruct Hsched as (Hso & Hi & Hf).
  exists o, s. repeat split; assumption || reflexivity.
Qed.

(** X18: with the flag [adafactor] unset, [AdamW] needs the configured
    epsilon: without [adam_epsilon] among the hyperparameters
    [configure_optimizers] raises [AttributeError]. *)
Theorem adamw_needs_adam_epsilon self wd flag lr :
  hparams self !! "weight_decay" = Some wd ->
  hparams self !! "adafactor" = Some flag ->
  truthy flag = false ->
  hparams self !! "learning_rate" = Some lr ->
  hparams self !! "adam_epsilon" = None ->
  configure_optimizers sub self = inl (AttributeError "adam_epsilon").
Proof.
  intros Hwd Hflag Hfalse Hlr Heps.
  unfold configure_optimizers, optimizer_grouped_parameters, getattr.
  rewrite Hwd. cbn [bind_result]. rewrite Hflag. cbn [bind_result].
  rewrite Hfalse, Hlr. cbn [bind_result]. rewrite Heps. reflexivity.
Qed.


End OptimizersMore.

Section OptimizersMoreExamples.
Import Py Lightning Cli Fixture.

Lemma get_lr_scheduler_unknown_kind_witness :
  get_lr_scheduler task
    (resolved (hparams_with [("lr_scheduler", VStr "exponential")] 50 60 100))
  = inl (KeyError "exponential").
Proof.
  apply get_lr_scheduler_unknown_kind; vm_compute; reflexivity.
Defined.

Lemma get_lr_scheduler_before_optimizer_witness :
  exists self,
    __init__ (hparams_with [] 50 60 100) None None None None ∅ = inr self /\
    get_lr_scheduler task self = inl (AttributeError "opt").
Proof.
  set (hp := hparams_with [] 50 60 100).
  set (self := set_target_lens (resolved hp)
                 (<["train" := VInt 50]>
                  (<["val" := VInt 60]> (<["test" := VInt 100]> ∅)))).
  assert (Hinit : __init__ hp None None None None ∅ = inr self)
    by (vm_compute; reflexivity).
  exists self. split; [exact Hinit|].
  apply (get_lr_scheduler_before_optimizer task hp None None None None ∅ self
           "linear" get_linear_schedule_with_warmup Hinit);
    vm_compute; reflexivity.
Defined.

Lemma configure_optimizers_returns_witness :
  exists self' o s,
    configure_optimizers task (resolved (hparams_with [] 50 60 100))
    = inr (self', ([o], [s])) /\
    opt self' = Some o /\
    optimizer (scheduler s) = o.
Proof.
  set (self := resolved (hparams_with [] 50 60 100)).
  set (groups := [ {| params := [0%nat; 3%nat];
                      weight_decay := float 5764607523034235 (-59) |};
                   {| params := [1%nat; 2%nat];
                      weight_decay := VFloat (S754_zero false) |} ]).
  set (o := Adafactor groups (float 7378697629483821 (-67)) false false).
  set (s := {| scheduler := {| factory := get_linear_schedule_with_warmup;
                               optimizer := o;
                               num_warmup_steps := VInt 0;
                               num_training_steps := VInt 1000 |};
               interval := "step"; frequency := 1 |}).
  assert (Hrun : configure_optimizers task self
                 = inr (set_opt self o, ([o], [s])))
    by (vm_compute; reflexivity).
  destruct (configure_optimizers_returns task self _ _ _ Hrun)
    as (o' & s' & Ho & Hs & _ & Hopt & Hsched & _).
  injection Ho as <-. injection Hs as <-.
  exists (set_opt self o), o, s. auto.
Defined.

Lemma adamw_needs_adam_epsilon_witness :
  configure_optimizers task
    (resolved (delete "adam_epsilon"
                 (hparams_with [("adafactor", VBool false)] 50 60 100)))
  = inl (AttributeError "adam_epsilon").
Proof.
  apply (adamw_needs_adam_epsilon task _ (float 5764607523034235 (-59))
           (VBool false) (float 7378697629483821 (-67)));
    vm_compute; reflexivity.
Defined.


End OptimizersMoreExamples.

(** ** [generic_train], continued *)

Lemma logger_name_match {A} (name : Py.value) (x y : A) :
  match name with Py.VStr "wandb" => x | _ => y end
  = if match name with Py.VStr s => String.eqb s "wandb" | _ => false end
    then x else y.
Proof.
  destruct name as [| | | |s]; try reflexivity.
  do 5 (destruct s as [|[[] [] [] [] [] [] [] []] s]; try reflexivity).
  destruct s; reflexivity.
Qed.

Lemma value_none_match {A} (r : Py.value) (x y : A) :
  match r with Py.VNone => x | _ => y end
  = if match r with Py.VNone => true | _ => false end then x else y.
Proof. destruct r; reflexivity. Qed.

Ltac step_key H m k v E :=
  destruct (m !! k) as [v|] eqn:E; [|discriminate H];
  cbn [Py.stdout Py.calls] in H.

Section TrainingMore.
Import Py Lightning Cli.
Context `{Surroundings}.

(** What a run that returns a trainer has read and done. *)
Lemma generic_train_inversion model args logger0 kw (w w' : world call) t :
  generic_train model args logger0 kw w = (inr t, w') ->
  exists seed d vm agb s3 g v n gpus local r debug name ids,
    args !! "seed" = Some seed /\
    hparams model !! "output_dir" = Some (VStr d) /\
    mkdir_succeeds d = true /\
    args !! "val_metric" = Some vm /\
    hparams model !! "accumulate_grad_batches" = Some agb /\
    hparams model !! "deepspeed_stage_3" = Some s3 /\
    args !! "gradient_clip_val" = Some g /\
    args !! "val_check_interval" = Some v /\
    args !! "num_sanity_val_steps" = Some n /\
    args !! "gpus" = Some gpus /\
    hparams model !! "local" = Some local /\
    args !! "resume_from_checkpoint" = Some r /\
    args !! "debug_mode" = Some debug /\
    args !! "logger_name" = Some name /\
    trainer_args t = args /\
    callbacks t = [ {| dirpath := d; monitor := vm; mode := "max";
                       save_top_k := 1 |} ] /\
    w' = World (stdout w)
               (calls w ++ [seed_everything seed; mkdir d true] ++ ids
                        ++ [from_argparse_args t; fit t model]) /\
    (name = VStr "wandb" ->
     exists i wbn wbp wbe,
       args !! "id" = Some i /\ args !! "wb_name" = Some wbn /\
       args !! "wb_project" = Some wbp /\ args !! "wb_entity" = Some wbe /\
       logger t = WandbLogger (match i with VNone => generated_id | _ => i end)
                              wbn wbp wbe /\
       ids = match i with VNone => [generate_id] | _ => [] end) /\
    (name <> VStr "wandb" -> logger t = logger0 /\ ids = []) /\
    train_params t =
      (let tp := <["strategy" := Plain (VStr "deepspeed_stage_2")]>
                 (<["precision" := Plain (VInt 16)]>
                  (<["accumulate_grad_batches" := Plain agb]> ∅)) in
       let tp := if truthy s3
                 then <["strategy" := Plain (VStr "ddp_sharded")]>
                      (<["strategy" := DeepSpeedPlugin 3 true true true]> tp)
                 else tp in
       let tp := <["gpus" := Plain gpus]>
                 (<["num_sanity_val_steps" := Plain n]>
                  (<["val_check_interval" := Plain v]>
                   (<["gradient_clip_val" := Plain g]>
                    (<["profiler" :=
                        Plain (getattr_default kw "profiler" VNone)]> tp)))) in
       let tp := if truthy local
                 then <["strategy" := Plain VNone]>
                      (<["gpus" := Plain (VInt 0)]>
                       (<["num_sanity_val_steps" := Plain (VInt 10)]>
                        (<["precision" := Plain (VInt 32)]> tp)))
                 else tp in
       let tp := match r with
                 | VNone => tp
                 | _ => <["resume_from_checkpoint" := Plain r]> tp
                 end in
       if truthy debug
       then <["limit_val_batches" := Plain (VInt 2)]>
            (<["limit_train_batches" := Plain (VInt 20)]> tp)
       else tp).
Proof.
  unfold generic_train, bind, lift, emit, ret, raise, getattr.
  intros Hrun.
  step_key Hrun args "seed" seed Eseed.
  step_key Hrun (hparams model) "output_dir" dv Edir.
  destruct dv as [| | | |d]; try discriminate Hrun.
  cbn [Path stdout calls] in Hrun.
  destruct (mkdir_succeeds d) eqn:Hmk; [|discriminate Hrun].
  step_key Hrun args "val_metric" vm Evm.
  step_key Hrun (hparams model) "accumulate_grad_batches" agb Eagb.
  step_key Hrun (hparams model) "deepspeed_stage_3" s3 Es3.
  step_key Hrun args "gradient_clip_val" g Eg.
  step_key Hrun args "val_check_interval" v Ev.
  step_key Hrun args "num_sanity_val_steps" n En.
  step_key Hrun args "gpus" gpus Egpus.
  step_key Hrun (hparams model) "local" local Elocal.
  step_key Hrun args "resume_from_checkpoint" r Er.
  rewrite (value_none_match r) in Hrun.
  destruct (match r with VNone => true | _ => false end) eqn:Hr0;
    cbv beta iota in Hrun;
    (step_key Hrun args "debug_mode" debug Edebug);
    (step_key Hrun args "logger_name" name Ename);
    rewrite logger_name_match in Hrun;
    (destruct (match name with VStr s => String.eqb s "wandb" | _ => false end)
       eqn:Hw;
    [ assert (Hname : name = VStr "wandb")
        by (destruct name; try discriminate Hw; apply String.eqb_eq in Hw;
            now subst);
      step_key Hrun args "id" i Ei;
      rewrite (value_none_match i) in Hrun;
      destruct (match i with VNone => true | _ => false end) eqn:Hi0;
      cbv beta iota in Hrun; cbn [stdout calls] in Hrun;
      (step_key Hrun args "wb_name" wbn Ewbn);
      (step_key Hrun args "wb_project" wbp Ewbp);
      (step_key Hrun args "wb_entity" wbe Ewbe);
      injection Hrun as <- <-;
      [> eexists seed, d, vm, agb, s3, g, v, n, gpus, local, r, debug, name,
                 [generate_id]
       | eexists seed, d, vm, agb, s3, g, v, n, gpus, local, r, debug, name, []
       ];
      cbn [trainer_args callbacks logger train_params stdout calls];
      repeat (split; [first [assumption | reflexivity]|]);
      (split; [ f_equal; rewrite <- !app_assoc; reflexivity |]);
      (split; [ intros _; eexists i, _, _, _;
                repeat (split; [reflexivity|]);
                rewrite (value_none_match i generated_id i),
                        (value_none_match i [generate_id] []), Hi0;
                split; reflexivity |]);
      (split; [ intros Hne; contradiction
              | rewrite (value_none_match r), Hr0; reflexivity ])
    | injection Hrun as <- <-;
      eexists seed, d, vm, agb, s3, g, v, n, gpus, local, r, debug, name, [];
      cbn [trainer_args callbacks logger train_params stdout calls];
      repeat (split; [first [assumption | reflexivity]|]);
      (split; [ f_equal; rewrite <- !app_assoc; reflexivity |]);
      (split; [ intros ->; discriminate Hw |]);
      (split; [ intros _; split; reflexivity
              | rewrite (value_none_match r), Hr0; reflexivity ]) ]).
Qed.

(** X20: a run that returns a trainer has seeded the generators, created
    the output directory of the model, built that trainer once, with one
    checkpoint callback on [args.val_metric] (mode [max], one checkpoint
    kept, in the output directory), and then fitted the model with it, in
    this order; it has printed nothing. *)
Theorem generic_train_fits_what_it_builds model args logger0 kw
    (w w' : world call) t :
  generic_train model args logger0 kw w = (inr t, w') ->
  exists seed d vm ids,
    args !! "seed" = Some seed /\
    hparams model !! "output_dir" = Some (VStr d) /\
    args !! "val_metric" = Some vm /\
    trainer_args t = args /\
    callbacks t = [ {| dirpath := d; monitor := vm; mode := "max";
                       save_top_k := 1 |} ] /\
    stdout w' = stdout w /\
    calls w' = calls w ++ [seed_everything seed; mkdir d true] ++ ids
                       ++ [from_argparse_args t; fit t model] /\
    (forall c, c ∈ ids -> c = generate_id).
Proof.
  intros Hrun. apply generic_train_inversion in Hrun
    as (seed & d & vm & agb & s3 & g & v & n & gpus & local & r & debug
        & name & ids & Hseed & Hdir & _ & Hvm & _ & _ & _ & _ & _ & _ & _ & _
        & _ & _ & Hargs & Hcb & -> & Hwandb & Hother & _).
  exists seed, d, vm, ids. repeat (split; [assumption || reflexivity|]).
  intros c Hc.
  destruct (match name with VStr s => String.eqb s "wandb" | _ => false end)
    eqn:Hw.
  - assert (Hname : name = VStr "wandb")
      by (destruct name; try discriminate Hw; apply String.eqb_eq in Hw;
          now subst).
    destruct (Hwandb Hname) as (i & _ & _ & _ & _ & _ & _ & _ & _ & Hids).
    subst ids. destruct i; try (inversion Hc; fail).
    apply list_elem_of_singleton in Hc. exact Hc.
  - destruct Hother as [_ Hids]; [intros ->; discriminate Hw|].
    subst ids. inversion Hc.
Qed.

Ltac params_cases s3 local r debug :=
  cbv zeta; rewrite (value_none_match r);
  destruct (truthy s3); destruct (truthy local);
  destruct (match r with Py.VNone => true | _ => false end);
  destruct (truthy debug);
  repeat first [ rewrite lookup_insert_eq
               | rewrite lookup_insert_ne by discriminate
               | rewrite lookup_empty ];
  reflexivity.

(** X21: the trainer of a returned run gets the strategy
    ["deepspeed_stage_2"], or ["ddp_sharded"] when the hyperparameter
    [deepspeed_stage_3] is set, or none at all when [local] is set: a name
    or [None], never a DeepSpeed plugin object. Its precision is 16, or 32
    when [local] is set, whatever [--fp16] says. *)
Theorem generic_train_strategy model args logger0 kw (w w' : world call) t :
  generic_train model args logger0 kw w = (inr t, w') ->
  exists s3 local,
    hparams model !! "deepspeed_stage_3" = Some s3 /\
    hparams model !! "local" = Some local /\
    train_params t !! "strategy"
      = Some (Plain (if truthy local then VNone
                     else if truthy s3 then VStr "ddp_sharded"
                     else VStr "deepspeed_stage_2")) /\
    train_params t !! "precision"
      = Some (Plain (VInt (if truthy local then 32 else 16))).
Proof.
  intros Hrun. apply generic_train_inversion in Hrun
    as (seed & d & vm & agb & s3 & g & v & n & gpus & local & r & debug
        & name & ids & _ & _ & _ & _ & _ & Hs3 & _ & _ & _ & _ & Hlocal & _
        & _ & _ & _ & _ & _ & _ & _ & Htp).
  exists s3, local. split; [exact Hs3|]. split; [exact Hlocal|].
  rewrite Htp. split; params_cases s3 local r debug.
Qed.

(** X22: the number of GPUs and of sanity-check steps are those of the
    arguments, unless the hyperparameter [local] is set: then they are 0
    and 10. *)
Theorem generic_train_local model args logger0 kw (w w' : world call) t :
  generic_train model args logger0 kw w = (inr t, w') ->
  exists gpus n local,
    args !! "gpus" = Some gpus /\
    args !! "num_sanity_val_steps" = Some n /\
    hparams model !! "local" = Some local /\
    train_params t !! "gpus"
      = Some (Plain (if truthy local then VInt 0 else gpus)) /\
    train_params t !! "num_sanity_val_steps"
      = Some (Plain (if truthy local then VInt 10 else n)).
Proof.
  intros Hrun. apply generic_train_inversion in Hrun
    as (seed & d & vm & agb & s3 & g & v & n & gpus & local & r & debug
        & name & ids & _ & _ & _ & _ & _ & _ & _ & _ & Hn & Hgpus & Hlocal
        & _ & _ & _ & _ & _ & _ & _ & _ & Htp).
  exists gpus, n, local. repeat (split; [assumption|]).
  rewrite Htp. split; params_cases s3 local r debug.
Qed.

(** X23: the trainer is limited to 20 training and 2 validation batches
    exactly when [debug_mode] is set, and is told to resume exactly when
    [resume_from_checkpoint] is not [None]. *)
Theorem generic_train_debug_and_resume model args logger0 kw
    (w w' : world call) t :
  generic_train model args logger0 kw w = (inr t, w') ->
  exists debug r,
    args !! "debug_mode" = Some debug /\
    args !! "resume_from_checkpoint" = Some r /\
    train_params t !! "limit_train_batches"
      = (if truthy debug then Some (Plain (VInt 20)) else None) /\
    train_params t !! "limit_val_batches"
      = (if truthy debug then Some (Plain (VInt 2)) else None) /\
    train_params t !! "resume_from_checkpoint"
      = (if match r with VNone => true | _ => false end
         then None else Some (Plain r)).
Proof.
  intros Hrun. apply generic_train_inversion in Hrun
    as (seed & d & vm & agb & s3 & g & v & n & gpus & local & r & debug
        & name & ids & _ & _ & _ & _ & _ & _ & _ & _ & _ & _ & _ & Hr
        & Hdebug & _ & _ & _ & _ & _ & _ & Htp).
  exists debug, r. repeat (split; [assumption|]).
  rewrite Htp. repeat split; params_cases s3 local r debug.
Qed.

(** X24: the logger of the trainer is the one handed to [generic_train],
    unless [logger_name] is ["wandb"]: then it is a [WandbLogger] made of
    [wb_name], [wb_project], [wb_entity] and the run identifier [args.id],
    or a generated one when [args.id] is [None]. *)
Theorem generic_train_logger model args logger0 kw (w w' : world call) t :
  generic_train model args logger0 kw w = (inr t, w') ->
  exists name,
    args !! "logger_name" = Some name /\
    (name <> VStr "wandb" -> logger t = logger0) /\
    (name = VStr "wandb" ->
     exists i wbn wbp wbe,
       args !! "id" = Some i /\ args !! "wb_name" = Some wbn /\
       args !! "wb_project" = Some wbp /\ args !! "wb_entity" = Some wbe /\
       logger t = WandbLogger (match i with VNone => generated_id | _ => i end)
                              wbn wbp wbe).
Proof.
  intros Hrun. apply generic_train_inversion in Hrun
    as (seed & d & vm & agb & s3 & g & v & n & gpus & local & r & debug
        & name & ids & _ & _ & _ & _ & _ & _ & _ & _ & _ & _ & _ & _
        & _ & Hname & _ & _ & _ & Hwandb & Hother & _).
  exists name. split; [exact Hname|]. split.
  - intros Hne. now destruct (Hother Hne).
  - intros Heq.
    destruct (Hwandb Heq) as (i & wbn & wbp & wbe & Hi & Hn & Hp & He & Hl & _).
    exists i, wbn, wbp, wbe. auto.
Qed.


End TrainingMore.

Section TrainingMoreExamples.
Import Py Lightning Cli Fixture.

Lemma train_run_succeeds :
  exists t w',
    generic_train train_model train_args (LoggerFlag true) ∅ (World [] [])
    = (inr t, w').
Proof.
  destruct (generic_train train_model train_args (LoggerFlag true) ∅
              (World [] [])) as [[e|t] w'] eqn:Hrun.
  - assert (Hok : is_ok (fst (generic_train train_model train_args
                                (LoggerFlag true) ∅ (World [] []))) = true)
      by (vm_compute; reflexivity).
    rewrite Hrun in Hok. discriminate Hok.
  - eauto.
Qed.

Lemma train_setting :
  train_args !! "seed" = Some (VInt 42) /\
  hparams train_model !! "output_dir" = Some (VStr "out") /\
  hparams train_model !! "deepspeed_stage_3" = Some (VBool false) /\
  hparams train_model !! "local" = Some (VBool false) /\
  train_args !! "gpus" = Some (VInt 1) /\
  train_args !! "num_sanity_val_steps" = Some (VInt (-1)) /\
  train_args !! "debug_mode" = Some (VBool false) /\
  train_args !! "resume_from_checkpoint" = Some VNone /\
  train_args !! "logger_name" = Some VNone.
Proof. repeat split; vm_compute; reflexivity. Qed.

Lemma generic_train_fits_what_it_builds_witness :
  exists t w' ids,
    generic_train train_model train_args (LoggerFlag true) ∅ (World [] [])
    = (inr t, w') /\
    calls w' = [seed_everything (VInt 42); mkdir "out" true] ++ ids
               ++ [from_argparse_args t; fit t train_model].
Proof.
  destruct train_run_succeeds as (t & w' & Hrun).
  destruct (generic_train_fits_what_it_builds _ _ _ _ _ _ _ Hrun)
    as (seed & d & vm & ids & Hseed & Hdir & _ & _ & _ & _ & Hcalls & _).
  destruct train_setting as (Es & Ed & _).
  rewrite Es in Hseed. injection Hseed as <-.
  rewrite Ed in Hdir. injection Hdir as <-.
  exists t, w', ids. split; [exact Hrun | exact Hcalls].
Defined.

Lemma generic_train_strategy_witness :
  exists t w',
    generic_train train_model train_args (LoggerFlag true) ∅ (World [] [])
    = (inr t, w') /\
    train_params t !! "strategy" = Some (Plain (VStr "deepspeed_stage_2")) /\
    train_params t !! "precision" = Some (Plain (VInt 16)).
Proof.
  destruct train_run_succeeds as (t & w' & Hrun).
  destruct (generic_train_strategy _ _ _ _ _ _ _ Hrun)
    as (s3 & local & Hs3 & Hlocal & Hstrategy & Hprecision).
  destruct train_setting as (_ & _ & E3 & El & _).
  rewrite E3 in Hs3. injection Hs3 as <-.
  rewrite El in Hlocal. injection Hlocal as <-.
  exists t, w'. split; [exact Hrun|]. split; assumption.
Defined.

Lemma generic_train_local_witness :
  exists t w',
    generic_train train_model train_args (LoggerFlag true) ∅ (World [] [])
    = (inr t, w') /\
    train_params t !! "gpus" = Some (Plain (VInt 1)) /\
    train_params t !! "num_sanity_val_steps" = Some (Plain (VInt (-1))).
Proof.
  destruct train_run_succeeds as (t & w' & Hrun).
  destruct (generic_train_local _ _ _ _ _ _ _ Hrun)
    as (gpus & n & local & Hgpus & Hn & Hlocal & Hg & Hs).
  destruct train_setting as (_ & _ & _ & El & Eg & En & _).
  rewrite Eg in Hgpus. injection Hgpus as <-.
  rewrite En in Hn. injection Hn as <-.
  rewrite El in Hlocal. injection Hlocal as <-.
  exists t, w'. split; [exact Hrun|]. split; assumption.
Defined.

Lemma generic_train_debug_and_resume_witness :
  exists t w',
    generic_train train_model train_args (LoggerFlag true) ∅ (World [] [])
    = (inr t, w') /\
    train_params t !! "limit_train_batches" = None /\
    train_params t !! "resume_from_checkpoint" = None.
Proof.
  destruct train_run_succeeds as (t & w' & Hrun).
  destruct (generic_train_debug_and_resume _ _ _ _ _ _ _ Hrun)
    as (debug & r & Hdebug & Hr & Hlt & _ & Hres).
  destruct train_setting as (_ & _ & _ & _ & _ & _ & Ed & Er & _).
  rewrite Ed in Hdebug. injection Hdebug as <-.
  rewrite Er in Hr. injection Hr as <-.
  exists t, w'. split; [exact Hrun|]. split; assumption.
Defined.

Lemma generic_train_logger_witness :
  exists t w',
    generic_train train_model train_args (LoggerFlag true) ∅ (World [] [])
    = (inr t, w') /\
    logger t = LoggerFlag true.
Proof.
  destruct train_run_succeeds as (t & w' & Hrun).
  destruct (generic_train_logger _ _ _ _ _ _ _ Hrun)
    as (name & Hname & Hother & _).
  destruct train_setting as (_ & _ & _ & _ & _ & _ & _ & _ & En).
  rewrite En in Hname. injection Hname as <-.
  exists t, w'. split; [exact Hrun|]. apply Hother. discriminate.
Defined.


End TrainingMoreExamples.
